(** * The releases service of go-gitlab (releases.go), and its wire contract

  A shallow embedding of [ReleasesService]: the five operations
  [ListReleases], [GetRelease], [CreateRelease], [UpdateRelease] and
  [DeleteRelease], the payload types with their [json] struct tags, and the
  collaborators they call ([parseID], [NewRequest], [Client.Do],
  [url.QueryEscape], [encoding/json]).

  Conventions.
  - A Go [string] is a [string] of bytes ([ascii]).
  - A Go pointer or slice that may be [nil] is an [option].
  - A Go [error] value is an [option error]; [None] is [nil].
  - The only effect of an operation is the call [s.client.Do(req, &r)];
    operations are programs ([Action]) over that single call, and [run]
    executes them against any executor while logging the requests. *)

From Stdlib Require Import ZArith NArith List String Ascii Bool Lia.
From Stdlib Require Import DecimalString.

#[local] Set Warnings "-register-all".
Import ListNotations.

Local Open Scope string_scope.
Local Open Scope bool_scope.

(* ------------------------------------------------------------------ *)
(** ** Bytes and strings *)

Module Bytes.

(** The double quote and the backslash, by code. *)
Definition dquote : ascii := ascii_of_nat 34.
Definition backslash : ascii := ascii_of_nat 92.

Definition code (c : ascii) : N := N_of_ascii c.

Definition between (lo hi : N) (c : ascii) : bool :=
  (lo <=? code c)%N && (code c <=? hi)%N.

Definition is_digit (c : ascii) : bool := between 48 57 c.
Definition is_upper (c : ascii) : bool := between 65 90 c.
Definition is_lower (c : ascii) : bool := between 97 122 c.
Definition is_alnum (c : ascii) : bool := is_digit c || is_upper c || is_lower c.

(** ASCII lower-casing, as used when JSON keys are matched to fields. *)
Definition to_lower (c : ascii) : ascii :=
  if is_upper c then ascii_of_N (code c + 32) else c.

Fixpoint equal_fold (a b : string) : bool :=
  match a, b with
  | EmptyString, EmptyString => true
  | String x a', String y b' => Ascii.eqb (to_lower x) (to_lower y) && equal_fold a' b'
  | _, _ => false
  end.

Fixpoint mem (c : ascii) (s : string) : bool :=
  match s with
  | EmptyString => false
  | String x r => Ascii.eqb c x || mem c r
  end.

(** [strings.Contains(hay, needle)]. *)
Fixpoint contains (needle hay : string) : bool :=
  prefix needle hay ||
  match hay with
  | EmptyString => false
  | String _ r => contains needle r
  end.

(** ["0123456789ABCDEF"[n]] and ["0123456789abcdef"[n]]. *)
Definition upperhex (n : N) : ascii :=
  if (n <? 10)%N then ascii_of_N (48 + n) else ascii_of_N (55 + n).
Definition lowerhex (n : N) : ascii :=
  if (n <? 10)%N then ascii_of_N (48 + n) else ascii_of_N (87 + n).

(** The value of a hexadecimal digit, in either case. *)
Definition unhex (c : ascii) : option N :=
  if is_digit c then Some (code c - 48)%N
  else if between 97 102 c then Some (code c - 87)%N
  else if between 65 70 c then Some (code c - 55)%N
  else None.

(** [strconv.Itoa]. *)
Definition Itoa (n : Z) : string := NilZero.string_of_int (Z.to_int n).

Definition quoted (s : string) : string :=
  String dquote (s ++ String dquote EmptyString).

End Bytes.
Import Bytes.

(* ------------------------------------------------------------------ *)
(** ** net/url *)

Module url.

(** [shouldEscape(c, encodeQueryComponent)]: everything but the unreserved
    characters is escaped. *)
Definition shouldEscape (c : ascii) : bool :=
  negb (is_alnum c || mem c "-_.~").

(** [url.QueryEscape]: a space becomes [+], an escaped byte becomes [%XX]
    with upper-case digits, the rest is copied. *)
Fixpoint QueryEscape (s : string) : string :=
  match s with
  | EmptyString => EmptyString
  | String c r =>
      if Ascii.eqb c " " then String "+" (QueryEscape r)
      else if shouldEscape c then
        String "%" (String (upperhex (code c / 16))
                      (String (upperhex (code c mod 16)) (QueryEscape r)))
      else String c (QueryEscape r)
  end.

(** Percent-decoding of a path segment ([url.PathUnescape]): [%XX] is one
    byte, a [%] not followed by two hexadecimal digits is an error, and every
    other byte, [+] included, stands for itself. *)
Fixpoint PathUnescape (s : string) : option string :=
  match s with
  | EmptyString => Some EmptyString
  | String c r =>
      if Ascii.eqb c "%" then
        match r with
        | String a (String b r') =>
            match unhex a, unhex b, PathUnescape r' with
            | Some x, Some y, Some t => Some (String (ascii_of_N (16 * x + y)) t)
            | _, _, _ => None
            end
        | _ => None
        end
      else
        match PathUnescape r with
        | Some t => Some (String c t)
        | None => None
        end
  end.

(** The wording of the specification, "the project segment is
    percent-encoded as a path segment": [enc] is one path segment (it holds
    no [/]) and percent-decodes to [raw]. *)
Definition percent_encoded_segment (raw enc : string) : bool :=
  negb (mem "/" enc) &&
  match PathUnescape enc with
  | Some t => String.eqb t raw
  | None => false
  end.

(** [url.QueryUnescape]: [%XX] is one byte, a [%] not followed by two
    hexadecimal digits is an error, a [+] is a space, and every other byte
    stands for itself. *)
Fixpoint QueryUnescape (s : string) : option string :=
  match s with
  | EmptyString => Some EmptyString
  | String c r =>
      if Ascii.eqb c "%" then
        match r with
        | String a (String b r') =>
            match unhex a, unhex b, QueryUnescape r' with
            | Some x, Some y, Some t => Some (String (ascii_of_N (16 * x + y)) t)
            | _, _, _ => None
            end
        | _ => None
        end
      else
        match QueryUnescape r with
        | Some t => Some (String (if Ascii.eqb c "+" then " "%char else c) t)
        | None => None
        end
  end.

(** The bytes [url.QueryEscape] can write: the unreserved ones, [%] and
    [+]. *)
Definition escaped_byte (c : ascii) : bool := is_alnum c || mem c "-_.~%+".

Fixpoint all_bytes (p : ascii -> bool) (s : string) : bool :=
  match s with
  | EmptyString => true
  | String c r => p c && all_bytes p r
  end.

End url.

(* ------------------------------------------------------------------ *)
(** ** encoding/json: values and the encoder *)

Module json.

(** A JSON number keeps its literal. *)
Inductive value : Type :=
| Null
| Bool (b : bool)
| Number (lit : string)
| Str (s : string)
| Array (elems : list value)
| Object (members : list (string * value)).

(** The keys of an object, in order. *)
Definition keys (v : value) : list string :=
  match v with
  | Object ms => map fst ms
  | _ => []
  end.

(** The first member stored under a key. *)
Fixpoint lookup (k : string) (ms : list (string * value)) : option value :=
  match ms with
  | [] => None
  | (k', v) :: r => if String.eqb k k' then Some v else lookup k r
  end.

Definition field (k : string) (v : value) : option value :=
  match v with
  | Object ms => lookup k ms
  | _ => None
  end.

(** One byte of a string literal, as [json.Marshal] writes it: the quote and
    the backslash are escaped with a backslash, newline, carriage return and
    tab have their short form, the other control bytes and the HTML
    characters [<], [>] and [&] are written [\u00XX], and every other byte
    is copied.  (Bytes from 128 up are copied: strings are taken to be valid
    UTF-8 without U+2028 and U+2029.) *)
Definition encode_byte (c : ascii) : string :=
  let n := code c in
  if Ascii.eqb c dquote then String backslash (String dquote EmptyString)
  else if Ascii.eqb c backslash then String backslash (String backslash EmptyString)
  else if (n =? 10)%N then String backslash "n"
  else if (n =? 13)%N then String backslash "r"
  else if (n =? 9)%N then String backslash "t"
  else if (n <? 32)%N || mem c "<>&" then
    String backslash
      (String "u" (String "0" (String "0"
         (String (lowerhex (n / 16)) (String (lowerhex (n mod 16)) EmptyString)))))
  else String c EmptyString.

Fixpoint encode_bytes (s : string) : string :=
  match s with
  | EmptyString => EmptyString
  | String c r => encode_byte c ++ encode_bytes r
  end.

Definition encode_string (s : string) : string := quoted (encode_bytes s).

(** The compact encoding: no white space, elements and members in the order
    given, with a comma between two of them. *)
Fixpoint encode (v : value) : string :=
  match v with
  | Null => "null"
  | Bool true => "true"
  | Bool false => "false"
  | Number lit => lit
  | Str s => encode_string s
  | Array vs => "[" ++ String.concat "," (map encode vs) ++ "]"
  | Object ms =>
      "{"
      ++ String.concat ","
           (map (fun m => encode_string (fst m) ++ ":" ++ encode (snd m)) ms)
      ++ "}"
  end.

(** *** The decoder: JSON text to a value *)

Definition is_space (c : ascii) : bool :=
  let n := code c in
  (n =? 32)%N || (n =? 9)%N || (n =? 10)%N || (n =? 13)%N.

Fixpoint skip_space (s : string) : string :=
  match s with
  | EmptyString => EmptyString
  | String c r => if is_space c then skip_space r else s
  end.

Definition byte (n : N) : ascii := ascii_of_N n.

(** The UTF-8 encoding of a code point. *)
Definition utf8 (n : N) : string :=
  (if n <? 128 then String (byte n) EmptyString
   else if n <? 2048 then
     String (byte (192 + n / 64)) (String (byte (128 + n mod 64)) EmptyString)
   else if n <? 65536 then
     String (byte (224 + n / 4096))
       (String (byte (128 + (n / 64) mod 64)) (String (byte (128 + n mod 64)) EmptyString))
   else
     String (byte (240 + n / 262144))
       (String (byte (128 + (n / 4096) mod 64))
          (String (byte (128 + (n / 64) mod 64)) (String (byte (128 + n mod 64)) EmptyString))))%N.

(** U+FFFD, written for a surrogate that has no partner. *)
Definition replacement : string := utf8 65533.

Definition is_high_surrogate (n : N) : bool := (55296 <=? n)%N && (n <? 56320)%N.
Definition is_low_surrogate (n : N) : bool := (56320 <=? n)%N && (n <? 57344)%N.
Definition combine_surrogates (hi lo : N) : N :=
  (65536 + (hi - 55296) * 1024 + (lo - 56320))%N.

Definition hex4 (a b c d : ascii) : option N :=
  match unhex a, unhex b, unhex c, unhex d with
  | Some w, Some x, Some y, Some z => Some (((w * 16 + x) * 16 + y) * 16 + z)%N
  | _, _, _, _ => None
  end.

(** The byte a one-letter escape stands for. *)
Definition simple_escape (e : ascii) : option ascii :=
  if Ascii.eqb e dquote then Some dquote
  else if Ascii.eqb e backslash then Some backslash
  else if Ascii.eqb e "/" then Some "/"%char
  else if Ascii.eqb e "b" then Some (byte 8)
  else if Ascii.eqb e "f" then Some (byte 12)
  else if Ascii.eqb e "n" then Some (byte 10)
  else if Ascii.eqb e "r" then Some (byte 13)
  else if Ascii.eqb e "t" then Some (byte 9)
  else None.

Definition flush (pending : option N) : string :=
  match pending with
  | Some _ => replacement
  | None => EmptyString
  end.

Definition emit (out : string) (k : option (string * string)) : option (string * string) :=
  match k with
  | Some (t, rest) => Some (out ++ t, rest)
  | None => None
  end.

(** A string literal from just after its opening quote: the text it denotes
    and what follows the closing quote.  [pending] is a high surrogate read
    from a [\uXXXX] escape and waiting for its low half. *)
Fixpoint unquote (pending : option N) (s : string) : option (string * string) :=
  match s with
  | EmptyString => None
  | String c r =>
      if Ascii.eqb c dquote then Some (flush pending, r)
      else if Ascii.eqb c backslash then
        match r with
        | EmptyString => None
        | String e r1 =>
            if Ascii.eqb e "u" then
              match r1 with
              | String h1 (String h2 (String h3 (String h4 r2))) =>
                  match hex4 h1 h2 h3 h4 with
                  | None => None
                  | Some n =>
                      match pending with
                      | Some hi =>
                          if is_low_surrogate n
                          then emit (utf8 (combine_surrogates hi n)) (unquote None r2)
                          else if is_high_surrogate n
                          then emit replacement (unquote (Some n) r2)
                          else emit (replacement ++ utf8 n) (unquote None r2)
                      | None =>
                          if is_high_surrogate n then unquote (Some n) r2
                          else if is_low_surrogate n
                          then emit replacement (unquote None r2)
                          else emit (utf8 n) (unquote None r2)
                      end
                  end
              | _ => None
              end
            else
              match simple_escape e with
              | Some x => emit (flush pending ++ String x EmptyString) (unquote None r1)
              | None => None
              end
        end
      else if (code c <? 32)%N then None
      else emit (flush pending ++ String c EmptyString) (unquote None r)
  end.

(** Number literals: an optional minus sign; a zero, or a non-zero digit and
    more digits; optionally a point and one digit or more; optionally [e] or
    [E], a sign and one digit or more. *)
Fixpoint drop_digits (s : string) : string :=
  match s with
  | EmptyString => EmptyString
  | String c r => if is_digit c then drop_digits r else s
  end.

Definition nonempty_digits_then (k : string -> bool) (s : string) : bool :=
  match s with
  | String d _ => is_digit d && k (drop_digits s)
  | EmptyString => false
  end.

Definition is_empty (s : string) : bool :=
  match s with EmptyString => true | _ => false end.

Definition exponent_ok (s : string) : bool :=
  match s with
  | EmptyString => true
  | String c r =>
      mem c "eE" &&
      nonempty_digits_then is_empty
        (match r with
         | String sg r' => if mem sg "+-" then r' else r
         | EmptyString => r
         end)
  end.

Definition fraction_ok (s : string) : bool :=
  match s with
  | String c r =>
      if Ascii.eqb c "." then nonempty_digits_then exponent_ok r else exponent_ok s
  | EmptyString => true
  end.

Definition valid_number (lit : string) : bool :=
  let s :=
    match lit with
    | String c r => if Ascii.eqb c "-" then r else lit
    | EmptyString => lit
    end in
  match s with
  | String c r =>
      if Ascii.eqb c "0" then fraction_ok r
      else is_digit c && fraction_ok (drop_digits r)
  | EmptyString => false
  end.

Definition number_byte (c : ascii) : bool := is_digit c || mem c "+-.eE".

Fixpoint span (p : ascii -> bool) (s : string) : string * string :=
  match s with
  | EmptyString => (EmptyString, EmptyString)
  | String c r =>
      if p c then let (a, b) := span p r in (String c a, b)
      else (EmptyString, s)
  end.

Fixpoint drop (n : nat) (s : string) : string :=
  match n, s with
  | S n', String _ r => drop n' r
  | _, _ => s
  end.

Definition parser (A : Type) : Type := string -> option (A * string).

(** The elements of an array after its [[]: a value, then [,] or []]. *)
Fixpoint parse_elems (n : nat) (pv : parser value) (s : string)
  : option (list value * string) :=
  match n with
  | O => None
  | S n' =>
      match pv s with
      | None => None
      | Some (v, r) =>
          match skip_space r with
          | EmptyString => None
          | String c r' =>
              if Ascii.eqb c "," then
                match parse_elems n' pv r' with
                | Some (vs, rest) => Some (v :: vs, rest)
                | None => None
                end
              else if Ascii.eqb c "]" then Some ([v], r')
              else None
          end
      end
  end.

(** The members of an object after its [{]: a key, [:], a value, then [,] or
    [}]. *)
Fixpoint parse_members (n : nat) (pv : parser value) (s : string)
  : option (list (string * value) * string) :=
  match n with
  | O => None
  | S n' =>
      match skip_space s with
      | EmptyString => None
      | String q r0 =>
          if Ascii.eqb q dquote then
            match unquote None r0 with
            | None => None
            | Some (k, r1) =>
                match skip_space r1 with
                | EmptyString => None
                | String colon r2 =>
                    if Ascii.eqb colon ":" then
                      match pv r2 with
                      | None => None
                      | Some (v, r3) =>
                          match skip_space r3 with
                          | EmptyString => None
                          | String c r4 =>
                              if Ascii.eqb c "," then
                                match parse_members n' pv r4 with
                                | Some (ms, rest) => Some ((k, v) :: ms, rest)
                                | None => None
                                end
                              else if Ascii.eqb c "}" then Some ([(k, v)], r4)
                              else None
                          end
                      end
                    else None
                end
            end
          else None
      end
  end.

Fixpoint parse_value (fuel : nat) (s : string) : option (value * string) :=
  match fuel with
  | O => None
  | S f =>
      match skip_space s with
      | EmptyString => None
      | String c r as t =>
          if Ascii.eqb c "{" then
            match skip_space r with
            | String c' r' =>
                if Ascii.eqb c' "}" then Some (Object [], r')
                else
                  match parse_members f (parse_value f) r with
                  | Some (ms, rest) => Some (Object ms, rest)
                  | None => None
                  end
            | EmptyString => None
            end
          else if Ascii.eqb c "[" then
            match skip_space r with
            | String c' r' =>
                if Ascii.eqb c' "]" then Some (Array [], r')
                else
                  match parse_elems f (parse_value f) r with
                  | Some (vs, rest) => Some (Array vs, rest)
                  | None => None
                  end
            | EmptyString => None
            end
          else if Ascii.eqb c dquote then
            match unquote None r with
            | Some (str, rest) => Some (Str str, rest)
            | None => None
            end
          else if prefix "true" t then Some (Bool true, drop 4 t)
          else if prefix "false" t then Some (Bool false, drop 5 t)
          else if prefix "null" t then Some (Null, drop 4 t)
          else if Ascii.eqb c "-" || is_digit c then
            let (lit, rest) := span number_byte t in
            if valid_number lit then Some (Number lit, rest) else None
          else None
      end
  end.

(** A whole document: one value, with white space around it and nothing
    else. *)
Definition parse (s : string) : option value :=
  match parse_value (S (String.length s)) s with
  | Some (v, rest) => if is_empty (skip_space rest) then Some v else None
  | None => None
  end.

(** *** Unmarshal: a value stored into a Go variable

    Each function takes the JSON value and the current content of the
    variable, and gives the new content, or [None] for a type mismatch.
    [null] leaves a string, number, boolean or struct as it is and sets a
    pointer or a slice to [nil]. *)

Definition into_string (j : value) (cur : string) : option string :=
  match j with
  | Str s => Some s
  | Null => Some cur
  | _ => None
  end.

Definition into_bool (j : value) (cur : bool) : option bool :=
  match j with
  | Bool b => Some b
  | Null => Some cur
  | _ => None
  end.

Fixpoint decimal (acc : Z) (s : string) : option Z :=
  match s with
  | EmptyString => Some acc
  | String c r =>
      if is_digit c then decimal (10 * acc + Z.of_N (code c - 48)) r else None
  end.

(** [strconv.ParseInt(lit, 10, 64)] on a number literal: no fraction, no
    exponent, and the range of a 64-bit [int]. *)
Definition parse_int (lit : string) : option Z :=
  let in_range (z : Z) : option Z :=
    if ((- 2 ^ 63 <=? z) && (z <? 2 ^ 63))%Z then Some z else None in
  match lit with
  | EmptyString => None
  | String c r =>
      if Ascii.eqb c "-" then
        match r with
        | EmptyString => None
        | _ => match decimal 0 r with Some z => in_range (- z)%Z | None => None end
        end
      else match decimal 0 lit with Some z => in_range z | None => None end
  end.

Definition into_int (j : value) (cur : Z) : option Z :=
  match j with
  | Number lit => parse_int lit
  | Null => Some cur
  | _ => None
  end.

(** A pointer to a struct: [null] gives [nil]; anything else is stored into
    the struct pointed to, a fresh zero one when the pointer was [nil]. *)
Definition into_ptr {X : Type} (zero : X) (dec : value -> X -> option X)
  (j : value) (cur : option X) : option (option X) :=
  match j with
  | Null => Some None
  | _ => option_map Some (dec j (match cur with Some x => x | None => zero end))
  end.

(** The elements of an array stored over the elements of a slice. *)
Fixpoint into_elems {X : Type} (zero : X) (dec : value -> X -> option X)
  (js : list value) (cur : list X) : option (list X) :=
  match js with
  | [] => Some []
  | j :: js' =>
      match dec j (hd zero cur) with
      | None => None
      | Some x => option_map (cons x) (into_elems zero dec js' (tl cur))
      end
  end.

Definition into_slice {X : Type} (zero : X) (dec : value -> X -> option X)
  (j : value) (cur : option (list X)) : option (option (list X)) :=
  match j with
  | Null => Some None
  | Array js =>
      option_map Some (into_elems zero dec js (match cur with Some l => l | None => [] end))
  | _ => None
  end.

(** A struct: the members of the object are stored one after the other, each
    by [set], which finds the field of a key. *)
Definition into_struct {X : Type} (set : string -> value -> X -> option X)
  (j : value) (cur : X) : option X :=
  match j with
  | Null => Some cur
  | Object ms =>
      fold_left
        (fun acc m => match acc with Some x => set (fst m) (snd m) x | None => None end)
        ms (Some cur)
  | _ => None
  end.

End json.

(* ------------------------------------------------------------------ *)
(** ** time.Time in JSON *)

Module time.

(** A parsed RFC 3339 timestamp. *)
Record Time : Type := mkTime {
  year : N; month : N; day : N;
  hour : N; minute : N; second : N;
  fraction : string;
  offset : Z (* minutes east of UTC *)
}.

Definition two (a b : ascii) : option N :=
  if is_digit a && is_digit b then Some (10 * (code a - 48) + (code b - 48))%N
  else None.

Definition leap (y : N) : bool :=
  ((y mod 4 =? 0) && (negb (y mod 100 =? 0) || (y mod 400 =? 0)))%N.

Definition days_in (y m : N) : N :=
  (if m =? 2 then (if leap y then 29 else 28)
   else if (m =? 4) || (m =? 6) || (m =? 9) || (m =? 11) then 30
   else 31)%N.

(** The zone: [Z], or a sign, two digits, a colon and two digits. *)
Definition zone (s : string) : option Z :=
  match s with
  | String z EmptyString => if Ascii.eqb z "Z" then Some 0%Z else None
  | String sg (String h1 (String h2 (String c (String m1 (String m2 EmptyString))))) =>
      match two h1 h2, two m1 m2 with
      | Some h, Some m =>
          if Ascii.eqb c ":" && (h <? 24)%N && (m <? 60)%N then
            if Ascii.eqb sg "+" then Some (Z.of_N (60 * h + m))
            else if Ascii.eqb sg "-" then Some (- Z.of_N (60 * h + m))%Z
            else None
          else None
      | _, _ => None
      end
  | _ => None
  end.

(** [time.Parse(time.RFC3339, s)]. *)
Definition Parse (s : string) : option Time :=
  match s with
  | String y1 (String y2 (String y3 (String y4 (String d1
    (String mo1 (String mo2 (String d2
    (String dy1 (String dy2 (String t
    (String h1 (String h2 (String c1
    (String mi1 (String mi2 (String c2
    (String s1 (String s2 rest)))))))))))))))))) =>
      match two y1 y2, two y3 y4, two mo1 mo2, two dy1 dy2 with
      | Some yh, Some yl, Some mo, Some dy =>
          match two h1 h2, two mi1 mi2, two s1 s2 with
          | Some h, Some mi, Some sc =>
              let y := (100 * yh + yl)%N in
              let (frac, tz) :=
                match rest with
                | String p r =>
                    if Ascii.eqb p "." then json.span is_digit r else (EmptyString, rest)
                | EmptyString => (EmptyString, rest)
                end in
              let frac_ok :=
                match rest with
                | String p _ => negb (Ascii.eqb p ".") || negb (json.is_empty frac)
                | EmptyString => true
                end in
              if Ascii.eqb d1 "-" && Ascii.eqb d2 "-" && Ascii.eqb t "T"
                 && Ascii.eqb c1 ":" && Ascii.eqb c2 ":"
                 && (1 <=? mo)%N && (mo <=? 12)%N
                 && (1 <=? dy)%N && (dy <=? days_in y mo)%N
                 && (h <? 24)%N && (mi <? 60)%N && (sc <? 60)%N && frac_ok
              then
                match zone tz with
                | Some off => Some (mkTime y mo dy h mi sc frac off)
                | None => None
                end
              else None
          | _, _, _ => None
          end
      | _, _, _, _ => None
      end
  | _ => None
  end.

Definition zero : Time := mkTime 1 1 1 0 0 0 EmptyString 0.

(** [Time.UnmarshalJSON]: a string holding an RFC 3339 timestamp. *)
Definition UnmarshalJSON (j : json.value) (cur : Time) : option Time :=
  match j with
  | json.Str s => Parse s
  | json.Null => Some cur
  | _ => None
  end.

End time.

(* ------------------------------------------------------------------ *)
(** ** The payload types of releases.go *)

(** The anonymous struct of [Release.Author]. *)
Module Author.

Record t : Type := mk {
  ID : Z;          (* `json:"id"` *)
  Name : string;   (* `json:"name"` *)
  Username : string; (* `json:"username"` *)
  State : string;  (* `json:"state"` *)
  AvatarURL : string; (* `json:"avatar_url"` *)
  WebURL : string  (* `json:"web_url"` *)
}.

Definition zero : t := mk 0 EmptyString EmptyString EmptyString EmptyString EmptyString.

Definition set (k : string) (v : json.value) (a : t) : option t :=
  if equal_fold k "id" then
    option_map (fun x => mk x (Name a) (Username a) (State a) (AvatarURL a) (WebURL a))
      (json.into_int v (ID a))
  else if equal_fold k "name" then
    option_map (fun x => mk (ID a) x (Username a) (State a) (AvatarURL a) (WebURL a))
      (json.into_string v (Name a))
  else if equal_fold k "username" then
    option_map (fun x => mk (ID a) (Name a) x (State a) (AvatarURL a) (WebURL a))
      (json.into_string v (Username a))
  else if equal_fold k "state" then
    option_map (fun x => mk (ID a) (Name a) (Username a) x (AvatarURL a) (WebURL a))
      (json.into_string v (State a))
  else if equal_fold k "avatar_url" then
    option_map (fun x => mk (ID a) (Name a) (Username a) (State a) x (WebURL a))
      (json.into_string v (AvatarURL a))
  else if equal_fold k "web_url" then
    option_map (fun x => mk (ID a) (Name a) (Username a) (State a) (AvatarURL a) x)
      (json.into_string v (WebURL a))
  else Some a.

Definition Unmarshal : json.value -> t -> option t := json.into_struct set.

End Author.

(** Modelled from the spec: the [Commit] type, declared outside releases.go;
    the specification has it as the "associated commit (optional, opaque
    external commit record)".  It keeps the members of the JSON object. *)
Module Commit.

Record t : Type := mk { members : list (string * json.value) }.

Definition zero : t := mk [].

Definition Unmarshal (j : json.value) (cur : t) : option t :=
  match j with
  | json.Object ms => Some (mk (members cur ++ ms))
  | json.Null => Some cur
  | _ => None
  end.

End Commit.

(** Modelled from the spec: the [ReleaseLink] type, declared outside
    releases.go; the specification says that the output representation of an
    asset link "carries its own id/external fields" and that its links "use
    [url], not [ref]". *)
Module ReleaseLink.

Record t : Type := mk {
  ID : Z;
  Name : string;
  URL : string;
  External : bool
}.

Definition zero : t := mk 0 EmptyString EmptyString false.

Definition set (k : string) (v : json.value) (l : t) : option t :=
  if equal_fold k "id" then
    option_map (fun x => mk x (Name l) (URL l) (External l)) (json.into_int v (ID l))
  else if equal_fold k "name" then
    option_map (fun x => mk (ID l) x (URL l) (External l)) (json.into_string v (Name l))
  else if equal_fold k "url" then
    option_map (fun x => mk (ID l) (Name l) x (External l)) (json.into_string v (URL l))
  else if equal_fold k "external" then
    option_map (fun x => mk (ID l) (Name l) (URL l) x) (json.into_bool v (External l))
  else Some l.

Definition Unmarshal : json.value -> t -> option t := json.into_struct set.

End ReleaseLink.

(** An element of [Release.Assets.Sources]. *)
Module Source.

Record t : Type := mk {
  Format : string; (* `json:"format"` *)
  URL : string     (* `json:"url"` *)
}.

Definition zero : t := mk EmptyString EmptyString.

Definition set (k : string) (v : json.value) (s : t) : option t :=
  if equal_fold k "format" then
    option_map (fun x => mk x (URL s)) (json.into_string v (Format s))
  else if equal_fold k "url" then
    option_map (fun x => mk (Format s) x) (json.into_string v (URL s))
  else Some s.

Definition Unmarshal : json.value -> t -> option t := json.into_struct set.

End Source.

(** The anonymous struct of [Release.Assets]. *)
Module Assets.

Record t : Type := mk {
  Count : Z;                             (* `json:"count"` *)
  Sources : option (list Source.t);      (* `json:"sources"` *)
  Links : option (list ReleaseLink.t)    (* `json:"links"` *)
}.

Definition zero : t := mk 0 None None.

Definition set (k : string) (v : json.value) (a : t) : option t :=
  if equal_fold k "count" then
    option_map (fun x => mk x (Sources a) (Links a)) (json.into_int v (Count a))
  else if equal_fold k "sources" then
    option_map (fun x => mk (Count a) x (Links a))
      (json.into_slice Source.zero Source.Unmarshal v (Sources a))
  else if equal_fold k "links" then
    option_map (fun x => mk (Count a) (Sources a) x)
      (json.into_slice ReleaseLink.zero ReleaseLink.Unmarshal v (Links a))
  else Some a.

Definition Unmarshal : json.value -> t -> option t := json.into_struct set.

End Assets.

(** [type Release struct]. *)
Module Release.

Record t : Type := mk {
  TagName : string;                 (* `json:"tag_name"` *)
  Name : string;                    (* `json:"name"` *)
  Description : string;             (* `json:"description,omitempty"` *)
  DescriptionHTML : string;         (* `json:"description_html,omitempty"` *)
  CreatedAt : option time.Time;     (* `json:"created_at,omitempty"` *)
  Author : option Author.t;         (* `json:"author,omitempty"` *)
  Commit : option Commit.t;         (* `json:"commit,omitempty"` *)
  Assets : option Assets.t          (* `json:"assets,omitempty"` *)
}.

Definition zero : t := mk EmptyString EmptyString EmptyString EmptyString None None None None.

Definition set (k : string) (v : json.value) (r : t) : option t :=
  if equal_fold k "tag_name" then
    option_map
      (fun x => mk x (Name r) (Description r) (DescriptionHTML r) (CreatedAt r)
                  (Author r) (Commit r) (Assets r))
      (json.into_string v (TagName r))
  else if equal_fold k "name" then
    option_map
      (fun x => mk (TagName r) x (Description r) (DescriptionHTML r) (CreatedAt r)
                  (Author r) (Commit r) (Assets r))
      (json.into_string v (Name r))
  else if equal_fold k "description" then
    option_map
      (fun x => mk (TagName r) (Name r) x (DescriptionHTML r) (CreatedAt r)
                  (Author r) (Commit r) (Assets r))
      (json.into_string v (Description r))
  else if equal_fold k "description_html" then
    option_map
      (fun x => mk (TagName r) (Name r) (Description r) x (CreatedAt r)
                  (Author r) (Commit r) (Assets r))
      (json.into_string v (DescriptionHTML r))
  else if equal_fold k "created_at" then
    option_map
      (fun x => mk (TagName r) (Name r) (Description r) (DescriptionHTML r) x
                  (Author r) (Commit r) (Assets r))
      (json.into_ptr time.zero time.UnmarshalJSON v (CreatedAt r))
  else if equal_fold k "author" then
    option_map
      (fun x => mk (TagName r) (Name r) (Description r) (DescriptionHTML r) (CreatedAt r)
                  x (Commit r) (Assets r))
      (json.into_ptr Author.zero Author.Unmarshal v (Author r))
  else if equal_fold k "commit" then
    option_map
      (fun x => mk (TagName r) (Name r) (Description r) (DescriptionHTML r) (CreatedAt r)
                  (Author r) x (Assets r))
      (json.into_ptr Commit.zero Commit.Unmarshal v (Commit r))
  else if equal_fold k "assets" then
    option_map
      (fun x => mk (TagName r) (Name r) (Description r) (DescriptionHTML r) (CreatedAt r)
                  (Author r) (Commit r) x)
      (json.into_ptr Assets.zero Assets.Unmarshal v (Assets r))
  else Some r.

Definition Unmarshal : json.value -> t -> option t := json.into_struct set.

(** Decoding into [var r *Release]. *)
Definition UnmarshalPtr : json.value -> option t -> option (option t) :=
  json.into_ptr zero Unmarshal.

(** Decoding into [var r []*Release]. *)
Definition UnmarshalSlice
  : json.value -> option (list (option t)) -> option (option (list (option t))) :=
  json.into_slice None UnmarshalPtr.

End Release.

(** Modelled from the spec: [ListOptions], declared outside releases.go:
    "pagination parameters: page number, per-page count (exact fields owned by
    the external collaborator)". *)
Module ListOptions.

Record t : Type := mk { Page : Z; PerPage : Z }.

End ListOptions.

(** [type ListReleasesOptions ListOptions]. *)
Definition ListReleasesOptions : Type := ListOptions.t.

(** [type ReleaseAssetLink struct]. *)
Module ReleaseAssetLink.

Record t : Type := mk {
  Name : string; (* `url:"name" json:"name"` *)
  URL : string   (* `url:"ref" json:"ref"` *)
}.

Definition Marshal (l : t) : json.value :=
  json.Object [("name", json.Str (Name l)); ("ref", json.Str (URL l))].

End ReleaseAssetLink.

(** [type ReleaseAssets struct]; a [nil] slice is written [null]. *)
Module ReleaseAssets.

Record t : Type := mk {
  Links : option (list ReleaseAssetLink.t) (* `url:"links" json:"links"` *)
}.

Definition Marshal (a : t) : json.value :=
  json.Object
    [("links",
      match Links a with
      | None => json.Null
      | Some ls => json.Array (map ReleaseAssetLink.Marshal ls)
      end)].

End ReleaseAssets.

(** [type CreateReleaseOptions struct]; [omitempty] leaves out an empty
    string and a [nil] pointer. *)
Module CreateReleaseOptions.

Record t : Type := mk {
  Name : string;        (* `url:"name" json:"name"` *)
  TagName : string;     (* `url:"tag_name" json:"tag_name"` *)
  Description : string; (* `url:"description" json:"description"` *)
  Ref : string;         (* `url:"ref,omitempty" json:"ref,omitempty"` *)
  Assets : option ReleaseAssets.t (* `url:"assets,omitempty" json:"assets,omitempty"` *)
}.

Definition Marshal (o : t) : json.value :=
  json.Object
    ([("name", json.Str (Name o));
      ("tag_name", json.Str (TagName o));
      ("description", json.Str (Description o))]
     ++ (if json.is_empty (Ref o) then [] else [("ref", json.Str (Ref o))])
     ++ (match Assets o with
         | None => []
         | Some a => [("assets", ReleaseAssets.Marshal a)]
         end)).

End CreateReleaseOptions.

(** [type UpdateReleaseOptions struct]. *)
Module UpdateReleaseOptions.

Record t : Type := mk {
  Name : string;       (* `url:"name" json:"name"` *)
  Description : string (* `url:"description" json:"description"` *)
}.

Definition Marshal (o : t) : json.value :=
  json.Object [("name", json.Str (Name o)); ("description", json.Str (Description o))].

End UpdateReleaseOptions.

(* ------------------------------------------------------------------ *)
(** ** The shared client: errors, requests, responses *)

(** Modelled from the spec: the kinds of error of the specification's error
    handling design; in Go they are all plain [error] values. *)
Inductive ErrorKind : Type :=
| InvalidArgument
| RequestConstructionError
| TransportError
| RemoteError
| DecodeError.

Record error : Type := mkError { kind : ErrorKind; message : string }.

(** A Go result [(T, error)] whose value is only read when the error is
    [nil]. *)
Inductive result (A : Type) : Type :=
| Ok (a : A)
| Err (e : error).
Arguments Ok {A} a.
Arguments Err {A} e.

(** What a caller can pass for [pid interface{}]. *)
Inductive GoValue : Type :=
| GoInt (n : Z)
| GoString (s : string)
| GoFloat64 (significand exponent : Z)
| GoBool (b : bool)
| GoStruct (type_name : string)
| GoNil.

(** Modelled from the spec: [parseID], the project-reference parser of the
    shared client, declared outside releases.go: it "accepts integer or
    string, returns normalized path segment or error", and "if the reference
    is of an unsupported type or an empty/invalid string, the operation fails
    immediately with an InvalidArgument error".  The empty string is the one
    invalid string the specification names. *)
Definition parseID (id : GoValue) : result string :=
  match id with
  | GoInt n => Ok (Itoa n)
  | GoString s =>
      if json.is_empty s
      then Err (mkError InvalidArgument "invalid ID, the ID must not be empty")
      else Ok s
  | _ => Err (mkError InvalidArgument "invalid ID type, the ID must be an int or a string")
  end.

(** The [opt interface{}] argument of [NewRequest], as releases.go passes it:
    [nil], or a pointer to one of the three option structs. *)
Inductive Options : Type :=
| NoOptions
| ListOpts (o : option ListReleasesOptions)
| CreateOpts (o : option CreateReleaseOptions.t)
| UpdateOpts (o : option UpdateReleaseOptions.t).

Record Request : Type := mkRequest {
  Method : string;
  Path : string;
  Query : option ListReleasesOptions;
  Body : option string;
  Header : list (string * string)
}.

(** [type OptionFunc func(req *http.Request) error]: a request mutator that
    may fail. *)
Definition OptionFunc : Type := Request -> result Request.

(** The JSON body of a request: [json.Marshal] of the options. *)
Definition body_of (opt : Options) : option string :=
  match opt with
  | CreateOpts (Some o) => Some (json.encode (CreateReleaseOptions.Marshal o))
  | UpdateOpts (Some o) => Some (json.encode (UpdateReleaseOptions.Marshal o))
  | CreateOpts None | UpdateOpts None => Some (json.encode json.Null)
  | ListOpts _ | NoOptions => None
  end.

Definition query_of (opt : Options) : option ListReleasesOptions :=
  match opt with
  | ListOpts o => o
  | _ => None
  end.

Definition baseRequest (method path : string) (opt : Options) : Request :=
  mkRequest method path (query_of opt) (body_of opt) [].

Fixpoint applyOptions (options : list OptionFunc) (req : Request) : result Request :=
  match options with
  | [] => Ok req
  | fn :: rest =>
      match fn req with
      | Ok req' => applyOptions rest req'
      | Err e => Err e
      end
  end.

(** The shared client as the service sees it: its request builder. *)
Record Client : Type := mkClient {
  NewRequest : string -> string -> Options -> list OptionFunc -> result Request
}.

(** Modelled from the spec: [Client.NewRequest], declared outside
    releases.go: the "request builder (verb, path, body, query, extra
    per-call options)".  The interface table gives the list operation its
    pagination parameters as query and the create and update operations
    their options as JSON body; the per-call options are "an ordered sequence
    of request-transforming functions applied after the base request is
    built, each capable of failing independently". *)
Definition NewClient : Client :=
  mkClient (fun method path opt options => applyOptions options (baseRequest method path opt)).

(** [type ReleasesService struct { client *Client }]. *)
Record ReleasesService : Type := mkService { client : Client }.

(** The response metadata. *)
Record Response : Type := mkResponse {
  StatusCode : Z;
  ResponseBody : string
}.

(** The variable a response is decoded into: [var r *Release] or
    [var r []*Release]. *)
Inductive Target : Type :=
| IntoRelease
| IntoReleases.

Definition target (t : Target) : Type :=
  match t with
  | IntoRelease => option Release.t
  | IntoReleases => option (list (option Release.t))
  end.

(** What [resp, err := s.client.Do(req, &r)] leaves behind: the content of
    [r], the response metadata and the error. *)
Record Done (T : Type) : Type := mkDone {
  value : T;
  resp : option Response;
  err : option error
}.
Arguments mkDone {T} value resp err.
Arguments value {T} d.
Arguments resp {T} d.
Arguments err {T} d.

(** A program of the service: it returns, or it calls [Do] with a request and
    the variable to decode into, and goes on with what the call left. *)
Inductive Action (R : Type) : Type :=
| Return (r : R)
| Do (t : Target) (req : Request) (r : target t) (k : Done (target t) -> Action R).
Arguments Return {R} r.
Arguments Do {R} t req r k.

(* ------------------------------------------------------------------ *)
(** ** The five operations of [ReleasesService] *)

Section Operations.

Variable s : ReleasesService.

(** [func (s *ReleasesService) ListReleases(pid, opt, options...)]. *)
Definition ListReleases (pid : GoValue) (opt : option ListReleasesOptions)
  (options : list OptionFunc)
  : Action (option (list (option Release.t)) * option Response * option error) :=
  match parseID pid with
  | Err e => Return (None, None, Some e)
  | Ok project =>
      let u := "projects/" ++ url.QueryEscape project ++ "/releases" in
      match NewRequest (client s) "GET" u (ListOpts opt) options with
      | Err e => Return (None, None, Some e)
      | Ok req =>
          Do IntoReleases req None (fun d =>
            match err d with
            | Some e => Return (None, resp d, Some e)
            | None => Return (value d, resp d, err d)
            end)
      end
  end.

(** [func (s *ReleasesService) GetRelease(pid, tag, options...)]. *)
Definition GetRelease (pid : GoValue) (tag : string) (options : list OptionFunc)
  : Action (option Release.t * option Response * option error) :=
  match parseID pid with
  | Err e => Return (None, None, Some e)
  | Ok project =>
      let u := "projects/" ++ url.QueryEscape project ++ "/releases/" ++ tag in
      match NewRequest (client s) "GET" u NoOptions options with
      | Err e => Return (None, None, Some e)
      | Ok req =>
          Do IntoRelease req None (fun d =>
            match err d with
            | Some e => Return (None, resp d, Some e)
            | None => Return (value d, resp d, err d)
            end)
      end
  end.

(** [func (s *ReleasesService) CreateRelease(pid, opts, options...)]. *)
Definition CreateRelease (pid : GoValue) (opts : option CreateReleaseOptions.t)
  (options : list OptionFunc)
  : Action (option Release.t * option Response * option error) :=
  match parseID pid with
  | Err e => Return (None, None, Some e)
  | Ok project =>
      let u := "projects/" ++ url.QueryEscape project ++ "/releases" in
      match NewRequest (client s) "POST" u (CreateOpts opts) options with
      | Err e => Return (None, None, Some e)
      | Ok req =>
          Do IntoRelease req None (fun d =>
            match err d with
            | Some e => Return (None, resp d, Some e)
            | None => Return (value d, resp d, err d)
            end)
      end
  end.

(** [func (s *ReleasesService) UpdateRelease(pid, tag, opts, options...)]. *)
Definition UpdateRelease (pid : GoValue) (tag : string)
  (opts : option UpdateReleaseOptions.t) (options : list OptionFunc)
  : Action (option Release.t * option Response * option error) :=
  match parseID pid with
  | Err e => Return (None, None, Some e)
  | Ok project =>
      let u := "projects/" ++ url.QueryEscape project ++ "/releases/" ++ tag in
      match NewRequest (client s) "PUT" u (UpdateOpts opts) options with
      | Err e => Return (None, None, Some e)
      | Ok req =>
          Do IntoRelease req None (fun d =>
            match err d with
            | Some e => Return (None, resp d, Some e)
            | None => Return (value d, resp d, err d)
            end)
      end
  end.

(** [func (s *ReleasesService) DeleteRelease(pid, tag, options...)]. *)
Definition DeleteRelease (pid : GoValue) (tag : string) (options : list OptionFunc)
  : Action (option Release.t * option Response * option error) :=
  match parseID pid with
  | Err e => Return (None, None, Some e)
  | Ok project =>
      let u := "projects/" ++ url.QueryEscape project ++ "/releases/" ++ tag in
      match NewRequest (client s) "DELETE" u NoOptions options with
      | Err e => Return (None, None, Some e)
      | Ok req =>
          Do IntoRelease req None (fun d =>
            match err d with
            | Some e => Return (None, resp d, Some e)
            | None => Return (value d, resp d, err d)
            end)
      end
  end.

End Operations.

(** The service over the modelled client. *)
Definition Releases : ReleasesService := mkService NewClient.

(* ------------------------------------------------------------------ *)
(** ** Running an operation *)

(** An executor stands for [Client.Do]: from the request, the variable to
    decode into and the state of the world, it gives what the call leaves and
    the new state. *)
Definition Executor (W : Type) : Type :=
  forall t : Target, Request -> target t -> W -> Done (target t) * W.

(** The outcome of a run: what the operation returned, the requests handed
    to [Do] in order, and the final state. *)
Record Outcome (R W : Type) : Type := mkOutcome {
  returned : R;
  calls : list Request;
  world : W
}.
Arguments mkOutcome {R W} returned calls world.
Arguments returned {R W} o.
Arguments calls {R W} o.
Arguments world {R W} o.

Fixpoint run {W R : Type} (exec : Executor W) (a : Action R) (w : W) : Outcome R W :=
  match a with
  | Return r => mkOutcome r [] w
  | Do t req v k =>
      let (d, w') := exec t req v w in
      let o := run exec (k d) w' in
      mkOutcome (returned o) (req :: calls o) (world o)
  end.

(** The result and the error of what an operation returns. *)
Definition result_of {A : Type} (x : A * option Response * option error) : A := fst (fst x).
Definition error_of {A : Type} (x : A * option Response * option error)
  : option error := snd x.

(** One HTTP round trip, as the transport sees it. *)
Inductive RoundTrip : Type :=
| ConnectionFailed (reason : string)
| Replied (status : Z) (body : string).

Definition Server (W : Type) : Type := Request -> W -> RoundTrip * W.

(** The body of a response decoded into the variable of the call. *)
Definition Unmarshal (t : Target) (body : string) : target t -> option (target t) :=
  match json.parse body with
  | None => fun _ => None
  | Some j =>
      match t return target t -> option (target t) with
      | IntoRelease => Release.UnmarshalPtr j
      | IntoReleases => Release.UnmarshalSlice j
      end
  end.

Definition success (status : Z) : bool := ((200 <=? status) && (status <=? 299))%Z.

(** Modelled from the spec: [Client.Do], declared outside releases.go: the
    "response executor (returns decoded-into-pointer result + response
    metadata + error)".  A connection-level failure is a [TransportError]
    with no response; a "non-success HTTP status" is a [RemoteError] "with
    status code and any server-provided error body preserved in the returned
    response metadata"; a body that "did not match the expected JSON shape"
    is a [DecodeError]. *)
Definition ClientDo {W : Type} (server : Server W) : Executor W :=
  fun t req v w =>
    let (rt, w') := server req w in
    match rt with
    | ConnectionFailed reason =>
        (mkDone v None (Some (mkError TransportError reason)), w')
    | Replied status body =>
        let rsp := mkResponse status body in
        if success status then
          match Unmarshal t body v with
          | Some v' => (mkDone v' (Some rsp) None, w')
          | None => (mkDone v (Some rsp) (Some (mkError DecodeError body)), w')
          end
        else (mkDone v (Some rsp) (Some (mkError RemoteError body)), w')
    end.

(* ------------------------------------------------------------------ *)
(** ** The fixtures of releases_test.go *)

(** The fixtures are Go raw strings.  In the literals below a backquote
    stands for the double quote, and [raw] puts it back. *)
Fixpoint raw (s : string) : string :=
  match s with
  | EmptyString => EmptyString
  | String c r => String (if Ascii.eqb c "`" then dquote else c) (raw r)
  end.

Definition exampleReleaseListRsp : string := raw "[
	{
	   `tag_name`:`v0.2`,
	   `description`:`## CHANGELOG\r\n\r\n- Escape label and milestone titles to prevent XSS in GFM autocomplete. !2740\r\n- Prevent private snippets from being embeddable.\r\n- Add subresources removal to member destroy service.`,
	   `name`:`Awesome app v0.2 beta`,
	   `description_html`:`\u003ch2 dir=\`auto\`\u003e\n\u003ca id=\`user-content-changelog\` class=\`anchor\` href=\`#changelog\` aria-hidden=\`true\`\u003e\u003c/a\u003eCHANGELOG\u003c/h2\u003e\n\u003cul dir=\`auto\`\u003e\n\u003cli\u003eEscape label and milestone titles to prevent XSS in GFM autocomplete. !2740\u003c/li\u003e\n\u003cli\u003ePrevent private snippets from being embeddable.\u003c/li\u003e\n\u003cli\u003eAdd subresources removal to member destroy service.\u003c/li\u003e\n\u003c/ul\u003e`,
	   `created_at`:`2019-01-03T01:56:19.539Z`,
	   `author`:{
		  `id`:1,
		  `name`:`Administrator`,
		  `username`:`root`,
		  `state`:`active`,
		  `avatar_url`:`https://www.gravatar.com/avatar/e64c7d89f26bd1972efa854d13d7dd61?s=80\u0026d=identicon`,
		  `web_url`:`http://localhost:3000/root`
	   },
	   `commit`:{
		  `id`:`079e90101242458910cccd35eab0e211dfc359c0`,
		  `short_id`:`079e9010`,
		  `title`:`Update README.md`,
		  `created_at`:`2019-01-03T01:55:38.000Z`,
		  `parent_ids`:[
			 `f8d3d94cbd347e924aa7b715845e439d00e80ca4`
		  ],
		  `message`:`Update README.md`,
		  `author_name`:`Administrator`,
		  `author_email`:`admin@example.com`,
		  `authored_date`:`2019-01-03T01:55:38.000Z`,
		  `committer_name`:`Administrator`,
		  `committer_email`:`admin@example.com`,
		  `committed_date`:`2019-01-03T01:55:38.000Z`
	   },
	   `assets`:{
		  `count`:6,
		  `sources`:[
			 {
				`format`:`zip`,
				`url`:`http://localhost:3000/root/awesome-app/-/archive/v0.2/awesome-app-v0.2.zip`
			 },
			 {
				`format`:`tar.gz`,
				`url`:`http://localhost:3000/root/awesome-app/-/archive/v0.2/awesome-app-v0.2.tar.gz`
			 },
			 {
				`format`:`tar.bz2`,
				`url`:`http://localhost:3000/root/awesome-app/-/archive/v0.2/awesome-app-v0.2.tar.bz2`
			 },
			 {
				`format`:`tar`,
				`url`:`http://localhost:3000/root/awesome-app/-/archive/v0.2/awesome-app-v0.2.tar`
			 }
		  ],
		  `links`:[
			 {
				`id`:2,
				`name`:`awesome-v0.2.msi`,
				`url`:`http://192.168.10.15:3000/msi`,
				`external`:true
			 },
			 {
				`id`:1,
				`name`:`awesome-v0.2.dmg`,
				`url`:`http://192.168.10.15:3000`,
				`external`:true
			 }
		  ]
	   }
	},
	{
	   `tag_name`:`v0.1`,
	   `description`:`## CHANGELOG\r\n\r\n-Remove limit of 100 when searching repository code. !8671\r\n- Show error message when attempting to reopen an MR and there is an open MR for the same branch. !16447 (Akos Gyimesi)\r\n- Fix a bug where internal email pattern wasn't respected. !22516`,
	   `name`:`Awesome app v0.1 alpha`,
	   `description_html`:`\u003ch2 dir=\`auto\`\u003e\n\u003ca id=\`user-content-changelog\` class=\`anchor\` href=\`#changelog\` aria-hidden=\`true\`\u003e\u003c/a\u003eCHANGELOG\u003c/h2\u003e\n\u003cul dir=\`auto\`\u003e\n\u003cli\u003eRemove limit of 100 when searching repository code. !8671\u003c/li\u003e\n\u003cli\u003eShow error message when attempting to reopen an MR and there is an open MR for the same branch. !16447 (Akos Gyimesi)\u003c/li\u003e\n\u003cli\u003eFix a bug where internal email pattern wasn't respected. !22516\u003c/li\u003e\n\u003c/ul\u003e`,
	   `created_at`:`2019-01-03T01:55:18.203Z`,
	   `author`:{
		  `id`:1,
		  `name`:`Administrator`,
		  `username`:`root`,
		  `state`:`active`,
		  `avatar_url`:`https://www.gravatar.com/avatar/e64c7d89f26bd1972efa854d13d7dd61?s=80\u0026d=identicon`,
		  `web_url`:`http://localhost:3000/root`
	   },
	   `commit`:{
		  `id`:`f8d3d94cbd347e924aa7b715845e439d00e80ca4`,
		  `short_id`:`f8d3d94c`,
		  `title`:`Initial commit`,
		  `created_at`:`2019-01-03T01:53:28.000Z`,
		  `parent_ids`:[

		  ],
		  `message`:`Initial commit`,
		  `author_name`:`Administrator`,
		  `author_email`:`admin@example.com`,
		  `authored_date`:`2019-01-03T01:53:28.000Z`,
		  `committer_name`:`Administrator`,
		  `committer_email`:`admin@example.com`,
		  `committed_date`:`2019-01-03T01:53:28.000Z`
	   },
	   `assets`:{
		  `count`:4,
		  `sources`:[
			 {
				`format`:`zip`,
				`url`:`http://localhost:3000/root/awesome-app/-/archive/v0.1/awesome-app-v0.1.zip`
			 },
			 {
				`format`:`tar.gz`,
				`url`:`http://localhost:3000/root/awesome-app/-/archive/v0.1/awesome-app-v0.1.tar.gz`
			 },
			 {
				`format`:`tar.bz2`,
				`url`:`http://localhost:3000/root/awesome-app/-/archive/v0.1/awesome-app-v0.1.tar.bz2`
			 },
			 {
				`format`:`tar`,
				`url`:`http://localhost:3000/root/awesome-app/-/archive/v0.1/awesome-app-v0.1.tar`
			 }
		  ],
		  `links`:[

		  ]
	   }
	}
 ]".

Definition exampleReleaseRsp : string := raw "{
	`tag_name`:`v0.1`,
	`description`:`## CHANGELOG\r\n\r\n- Remove limit of 100 when searching repository code. !8671\r\n- Show error message when attempting to reopen an MR and there is an open MR for the same branch. !16447 (Akos Gyimesi)\r\n- Fix a bug where internal email pattern wasn't respected. !22516`,
	`name`:`Awesome app v0.1 alpha`,
	`description_html`:`\u003ch2 dir=\`auto\`\u003e\n\u003ca id=\`user-content-changelog\` class=\`anchor\` href=\`#changelog\` aria-hidden=\`true\`\u003e\u003c/a\u003eCHANGELOG\u003c/h2\u003e\n\u003cul dir=\`auto\`\u003e\n\u003cli\u003eRemove limit of 100 when searching repository code. !8671\u003c/li\u003e\n\u003cli\u003eShow error message when attempting to reopen an MR and there is an open MR for the same branch. !16447 (Akos Gyimesi)\u003c/li\u003e\n\u003cli\u003eFix a bug where internal email pattern wasn't respected. !22516\u003c/li\u003e\n\u003c/ul\u003e`,
	`created_at`:`2019-01-03T01:55:18.203Z`,
	`author`:{
	   `id`:1,
	   `name`:`Administrator`,
	   `username`:`root`,
	   `state`:`active`,
	   `avatar_url`:`https://www.gravatar.com/avatar/e64c7d89f26bd1972efa854d13d7dd61?s=80\u0026d=identicon`,
	   `web_url`:`http://localhost:3000/root`
	},
	`commit`:{
	   `id`:`f8d3d94cbd347e924aa7b715845e439d00e80ca4`,
	   `short_id`:`f8d3d94c`,
	   `title`:`Initial commit`,
	   `created_at`:`2019-01-03T01:53:28.000Z`,
	   `parent_ids`:[

	   ],
	   `message`:`Initial commit`,
	   `author_name`:`Administrator`,
	   `author_email`:`admin@example.com`,
	   `authored_date`:`2019-01-03T01:53:28.000Z`,
	   `committer_name`:`Administrator`,
	   `committer_email`:`admin@example.com`,
	   `committed_date`:`2019-01-03T01:53:28.000Z`
	},
	`assets`:{
	   `count`:4,
	   `sources`:[
		  {
			 `format`:`zip`,
			 `url`:`http://localhost:3000/root/awesome-app/-/archive/v0.1/awesome-app-v0.1.zip`
		  },
		  {
			 `format`:`tar.gz`,
			 `url`:`http://localhost:3000/root/awesome-app/-/archive/v0.1/awesome-app-v0.1.tar.gz`
		  },
		  {
			 `format`:`tar.bz2`,
			 `url`:`http://localhost:3000/root/awesome-app/-/archive/v0.1/awesome-app-v0.1.tar.bz2`
		  },
		  {
			 `format`:`tar`,
			 `url`:`http://localhost:3000/root/awesome-app/-/archive/v0.1/awesome-app-v0.1.tar`
		  }
	   ],
	   `links`:[

	   ]
	}
 }".

(** The test server: [mux.HandleFunc(pattern, ...)] answers the requests for
    one path with a fixture, and every other request with 404.  Paths are
    relative to the base URL of the API. *)
Definition HandleFunc (pattern body : string) : Server unit :=
  fun req w =>
    if String.eqb (Path req) pattern then (Replied 200 body, w)
    else (Replied 404 "404 page not found", w).

(** The options of [TestReleasesService_CreateRelease] and of
    [TestReleasesService_CreateReleaseWithAsset]. *)
Definition testCreateOptions : CreateReleaseOptions.t :=
  CreateReleaseOptions.mk "name" "v0.1" "Description" EmptyString None.

Definition testCreateOptionsWithAsset : CreateReleaseOptions.t :=
  CreateReleaseOptions.mk "name" "v0.1" "Description" EmptyString
    (Some (ReleaseAssets.mk (Some [ReleaseAssetLink.mk "sldkf" "sldkfj"]))).

Definition testUpdateOptions : UpdateReleaseOptions.t :=
  UpdateReleaseOptions.mk "name" "Description".

(* ------------------------------------------------------------------ *)
(** ** The five operations as one family *)

Inductive Operation : Type :=
| OpListReleases (opt : option ListReleasesOptions)
| OpGetRelease (tag : string)
| OpCreateRelease (opts : option CreateReleaseOptions.t)
| OpUpdateRelease (tag : string) (opts : option UpdateReleaseOptions.t)
| OpDeleteRelease (tag : string).

Definition decodes_into (o : Operation) : Target :=
  match o with
  | OpListReleases _ => IntoReleases
  | _ => IntoRelease
  end.

(** The [nil] of either result type. *)
Definition nil (t : Target) : target t :=
  match t with
  | IntoRelease => None
  | IntoReleases => None
  end.

Definition perform (s : ReleasesService) (pid : GoValue) (o : Operation)
  (options : list OptionFunc)
  : Action (target (decodes_into o) * option Response * option error) :=
  match o with
  | OpListReleases opt => ListReleases s pid opt options
  | OpGetRelease tag => GetRelease s pid tag options
  | OpCreateRelease opts => CreateRelease s pid opts options
  | OpUpdateRelease tag opts => UpdateRelease s pid tag opts options
  | OpDeleteRelease tag => DeleteRelease s pid tag options
  end.

(** The interface table of the specification: method, path, and what goes
    into the body or the query. *)
Definition table_method (o : Operation) : string :=
  match o with
  | OpListReleases _ => "GET"
  | OpGetRelease _ => "GET"
  | OpCreateRelease _ => "POST"
  | OpUpdateRelease _ _ => "PUT"
  | OpDeleteRelease _ => "DELETE"
  end.

Definition table_path (project : string) (o : Operation) : string :=
  match o with
  | OpListReleases _ | OpCreateRelease _ => "projects/" ++ project ++ "/releases"
  | OpGetRelease tag | OpUpdateRelease tag _ | OpDeleteRelease tag =>
      "projects/" ++ project ++ "/releases/" ++ tag
  end.

Definition table_payload (o : Operation) : Options :=
  match o with
  | OpListReleases opt => ListOpts opt
  | OpCreateRelease opts => CreateOpts opts
  | OpUpdateRelease _ opts => UpdateOpts opts
  | OpGetRelease _ | OpDeleteRelease _ => NoOptions
  end.

(** What every operation does with the outcome of [Do]. *)
Definition finish (t : Target) (d : Done (target t))
  : Action (target t * option Response * option error) :=
  match err d with
  | Some e => Return (nil t, resp d, Some e)
  | None => Return (value d, resp d, err d)
  end.

(** A project reference the specification calls unsupported: neither an
    integer nor a string, or the empty string. *)
Definition unsupported (pid : GoValue) : Prop :=
  match pid with
  | GoInt _ => False
  | GoString s => s = EmptyString
  | _ => True
  end.

(** A per-call option that leaves the request line alone. *)
Definition keeps_request_line (fn : OptionFunc) : Prop :=
  forall r r', fn r = Ok r' -> Method r' = Method r /\ Path r' = Path r.

(** An executor that stores a release in the variable and fails all the
    same, as a decoder does that stops in the middle of a body. *)
Definition partialDecode : Executor unit :=
  fun t _ _ w =>
    (mkDone
       (match t return target t with
        | IntoRelease => Some Release.zero
        | IntoReleases => Some [Some Release.zero]
        end)
       (Some (mkResponse 200 "{"))
       (Some (mkError DecodeError "unexpected end of JSON input")),
     w).

(** What [url.QueryEscape] followed by percent-decoding makes of a string:
    every space has become a [+]. *)
Fixpoint plus_for_space (s : string) : string :=
  match s with
  | EmptyString => EmptyString
  | String c r => String (if Ascii.eqb c " " then "+"%char else c) (plus_for_space r)
  end.

(** The create-relevant fields of a release, as options for
    [CreateRelease]. *)
Definition createRelevant (r : Release.t) : CreateReleaseOptions.t :=
  CreateReleaseOptions.mk (Release.Name r) (Release.TagName r) (Release.Description r)
    EmptyString None.

(** A member of a JSON object as [json.encode] writes it. *)
Definition member_text (k : string) (v : string) : string :=
  quoted k ++ ":" ++ json.encode_string v.

(** The server echoes a tag: it answers the request with a success status
    and a JSON object that carries [tag] under [tag_name], with no later
    member under that key, and the object decodes to the release [r]. *)
Definition echoes {W : Type} (server : Server W) (w : W) (req : Request)
  (status : Z) (body : string) (w' : W) (tag : string) (r : Release.t) : Prop :=
  server req w = (Replied status body, w') /\
  success status = true /\
  exists ms1 ms2 : list (string * json.value),
    json.parse body = Some (json.Object (ms1 ++ ("tag_name", json.Str tag) :: ms2)) /\
    forallb (fun m => negb (equal_fold (fst m) "tag_name")) ms2 = true /\
    Release.Unmarshal (json.Object (ms1 ++ ("tag_name", json.Str tag) :: ms2)) Release.zero
    = Some r.

(** The release of the fixture [exampleReleaseRsp]. *)
Definition exampleRelease : Release.t :=
  Eval vm_compute in
    match json.parse exampleReleaseRsp with
    | Some j =>
        match Release.Unmarshal j Release.zero with
        | Some r => r
        | None => Release.zero
        end
    | None => Release.zero
    end.

(** A payload decoded into a release, and the create-relevant fields of the
    release encoded again and read back: the JSON value of the payload and
    the JSON value of the new text. *)
Definition round_trip (payload : json.value) : option json.value :=
  match Release.Unmarshal payload Release.zero with
  | Some r => json.parse (json.encode (CreateReleaseOptions.Marshal (createRelevant r)))
  | None => None
  end.

(** The payloads of the fixtures: the release of [exampleReleaseRsp] and the
    releases of [exampleReleaseListRsp]. *)
Definition fixture_payloads : list json.value :=
  match json.parse exampleReleaseRsp, json.parse exampleReleaseListRsp with
  | Some j, Some (json.Array js) => j :: js
  | _, _ => []
  end.

(** The three create-relevant members of a JSON object. *)
Definition create_relevant_members (j : json.value) : list (option json.value) :=
  [json.field "tag_name" j; json.field "name" j; json.field "description" j].

Definition is_string (v : option json.value) : bool :=
  match v with
  | Some (json.Str _) => true
  | _ => false
  end.

(** A payload whose create-relevant members are strings and come back
    unchanged from [round_trip]. *)
Definition preserved (j : json.value) : Prop :=
  forallb is_string (create_relevant_members j) = true /\
  exists j' : json.value,
    round_trip j = Some j' /\
    create_relevant_members j' = create_relevant_members j.

(* ------------------------------------------------------------------ *)
(** ** Further notions for the properties of the code *)

(** The response metadata of what an operation returns. *)
Definition response_of {A : Type} (x : A * option Response * option error)
  : option Response := snd (fst x).

(** The tag an operation puts in its path, if it puts one. *)
Definition tag_of (o : Operation) : option string :=
  match o with
  | OpListReleases _ | OpCreateRelease _ => None
  | OpGetRelease tag | OpUpdateRelease tag _ | OpDeleteRelease tag => Some tag
  end.

(** A per-call option that fails. *)
Definition failingOption (e : error) : OptionFunc := fun _ => Err e.





(** A JSON value that a string field accepts. *)
Definition string_or_null (v : json.value) : bool :=
  match v with
  | json.Str _ | json.Null => true
  | _ => false
  end.

(** The JSON values a [[]*Release] is decoded from, with what each gives: a
    release object its release, [null] a [nil] pointer. *)
Inductive decodes_to : json.value -> option Release.t -> Prop :=
| decodes_null : decodes_to json.Null None
| decodes_object (ms : list (string * json.value)) (r : Release.t) :
    Release.Unmarshal (json.Object ms) Release.zero = Some r ->
    decodes_to (json.Object ms) (Some r).


(* ------------------------------------------------------------------ *)
(** ** The common shape of the operations *)

Lemma perform_unfold (s : ReleasesService) (pid : GoValue) (o : Operation)
  (options : list OptionFunc) :
  perform s pid o options =
  match parseID pid with
  | Err e => Return (nil (decodes_into o), None, Some e)
  | Ok project =>
      match NewRequest (client s) (table_method o)
              (table_path (url.QueryEscape project) o) (table_payload o) options with
      | Err e => Return (nil (decodes_into o), None, Some e)
      | Ok req => Do (decodes_into o) req (nil (decodes_into o)) (finish (decodes_into o))
      end
  end.
Proof.
  destruct o; reflexivity.
Qed.

Lemma run_finish {W : Type} (exec : Executor W) (t : Target) (d : Done (target t)) (w : W) :
  run exec (finish t d) w =
  mkOutcome (match err d with Some _ => nil t | None => value d end, resp d, err d) [] w.
Proof.
  unfold finish. destruct (err d); reflexivity.
Qed.

Lemma run_Do {W R : Type} (exec : Executor W) (t : Target) (req : Request)
  (v : target t) (k : Done (target t) -> Action R) (w : W) :
  run exec (Do t req v k) w =
  mkOutcome (returned (run exec (k (fst (exec t req v w))) (snd (exec t req v w))))
    (req :: calls (run exec (k (fst (exec t req v w))) (snd (exec t req v w))))
    (world (run exec (k (fst (exec t req v w))) (snd (exec t req v w)))).
Proof.
  simpl. destruct (exec t req v w); reflexivity.
Qed.

(** An operation that gets as far as [Do] calls it once, and returns what the
    call left, with [nil] for the result when the error is not [nil]. *)
Lemma run_perform_built {W : Type} (exec : Executor W) (s : ReleasesService)
  (pid : GoValue) (o : Operation) (options : list OptionFunc) (w : W)
  (project : string) (req : Request) :
  parseID pid = Ok project ->
  NewRequest (client s) (table_method o) (table_path (url.QueryEscape project) o)
    (table_payload o) options = Ok req ->
  let d := fst (exec (decodes_into o) req (nil (decodes_into o)) w) in
  run exec (perform s pid o options) w =
  mkOutcome
    (match err d with Some _ => nil (decodes_into o) | None => value d end, resp d, err d)
    [req]
    (snd (exec (decodes_into o) req (nil (decodes_into o)) w)).
Proof.
  intros Hid Hreq d. rewrite perform_unfold, Hid, Hreq, run_Do, run_finish.
  reflexivity.
Qed.

Lemma run_perform_bad_id {W : Type} (exec : Executor W) (s : ReleasesService)
  (pid : GoValue) (o : Operation) (options : list OptionFunc) (w : W) (e : error) :
  parseID pid = Err e ->
  run exec (perform s pid o options) w =
  mkOutcome (nil (decodes_into o), None, Some e) [] w.
Proof.
  intros Hid. rewrite perform_unfold, Hid. reflexivity.
Qed.

Lemma run_perform_bad_request {W : Type} (exec : Executor W) (s : ReleasesService)
  (pid : GoValue) (o : Operation) (options : list OptionFunc) (w : W)
  (project : string) (e : error) :
  parseID pid = Ok project ->
  NewRequest (client s) (table_method o) (table_path (url.QueryEscape project) o)
    (table_payload o) options = Err e ->
  run exec (perform s pid o options) w =
  mkOutcome (nil (decodes_into o), None, Some e) [] w.
Proof.
  intros Hid Hreq. rewrite perform_unfold, Hid, Hreq. reflexivity.
Qed.

Lemma parseID_unsupported (pid : GoValue) :
  unsupported pid -> exists e, parseID pid = Err e /\ kind e = InvalidArgument.
Proof.
  destruct pid; simpl; intros H; try contradiction; subst; eexists; split; reflexivity.
Qed.

(* ------------------------------------------------------------------ *)
(** ** Failures *)

(** C1: for each of the five operations, a project reference of an
    unsupported type, or the empty string, makes the operation return an
    error of kind [InvalidArgument] with a [nil] result and [nil] response
    metadata, and no request is handed to [Do]: the log of calls is empty and
    the world is untouched, whatever the client and the executor are. *)
Theorem invalid_project_reference_fails_locally :
  forall (W : Type) (exec : Executor W) (s : ReleasesService) (pid : GoValue)
         (opt : option ListReleasesOptions) (tag : string)
         (copts : option CreateReleaseOptions.t) (uopts : option UpdateReleaseOptions.t)
         (options : list OptionFunc) (w : W),
    unsupported pid ->
    exists e : error,
      kind e = InvalidArgument /\
      run exec (ListReleases s pid opt options) w = mkOutcome (None, None, Some e) [] w /\
      run exec (GetRelease s pid tag options) w = mkOutcome (None, None, Some e) [] w /\
      run exec (CreateRelease s pid copts options) w = mkOutcome (None, None, Some e) [] w /\
      run exec (UpdateRelease s pid tag uopts options) w = mkOutcome (None, None, Some e) [] w /\
      run exec (DeleteRelease s pid tag options) w = mkOutcome (None, None, Some e) [] w.
Proof.
  intros W exec s pid opt tag copts uopts options w Hbad.
  destruct (parseID_unsupported pid Hbad) as [e [Hid Hkind]].
  exists e. split; [exact Hkind|].
  repeat split.
  - exact (run_perform_bad_id exec s pid (OpListReleases opt) options w e Hid).
  - exact (run_perform_bad_id exec s pid (OpGetRelease tag) options w e Hid).
  - exact (run_perform_bad_id exec s pid (OpCreateRelease copts) options w e Hid).
  - exact (run_perform_bad_id exec s pid (OpUpdateRelease tag uopts) options w e Hid).
  - exact (run_perform_bad_id exec s pid (OpDeleteRelease tag) options w e Hid).
Qed.

(** C1 at a floating-point project reference, against the test server. *)
Lemma invalid_project_reference_witness :
  unsupported (GoFloat64 15 (-1)) /\
  exists e : error,
    kind e = InvalidArgument /\
    calls (run (ClientDo (HandleFunc "projects/1/releases/v0.1" exampleReleaseRsp))
             (GetRelease Releases (GoFloat64 15 (-1)) "v0.1" []) tt) = [] /\
    returned (run (ClientDo (HandleFunc "projects/1/releases/v0.1" exampleReleaseRsp))
                (GetRelease Releases (GoFloat64 15 (-1)) "v0.1" []) tt)
    = (None, None, Some e).
Proof.
  split; [exact I|].
  destruct (invalid_project_reference_fails_locally unit
              (ClientDo (HandleFunc "projects/1/releases/v0.1" exampleReleaseRsp))
              Releases (GoFloat64 15 (-1)) None "v0.1" None None [] tt I)
    as [e [Hk [_ [Hget _]]]].
  exists e. rewrite Hget. split; [exact Hk | split; reflexivity].
Defined.

(** C5: when the call of [Do] comes back with an error, whatever its cause,
    the operation returns that very error and the response metadata that
    came with it, with a [nil] result; the request went out once. *)
Theorem transport_error_is_passed_through :
  forall (W : Type) (exec : Executor W) (s : ReleasesService) (pid : GoValue)
         (o : Operation) (options : list OptionFunc) (w : W)
         (project : string) (req : Request) (e : error),
    parseID pid = Ok project ->
    NewRequest (client s) (table_method o) (table_path (url.QueryEscape project) o)
      (table_payload o) options = Ok req ->
    err (fst (exec (decodes_into o) req (nil (decodes_into o)) w)) = Some e ->
    returned (run exec (perform s pid o options) w)
    = (nil (decodes_into o),
       resp (fst (exec (decodes_into o) req (nil (decodes_into o)) w)),
       Some e) /\
    calls (run exec (perform s pid o options) w) = [req] /\
    world (run exec (perform s pid o options) w)
    = snd (exec (decodes_into o) req (nil (decodes_into o)) w).
Proof.
  intros W exec s pid o options w project req e Hid Hreq Herr.
  rewrite (run_perform_built exec s pid o options w project req Hid Hreq).
  simpl. rewrite Herr. repeat split.
Qed.

(** C5 on a server that answers 404: the error of the client and the
    response with its status reach the caller. *)
Lemma transport_error_witness :
  returned (run (ClientDo (HandleFunc "elsewhere" exampleReleaseRsp))
              (GetRelease Releases (GoInt 1) "v0.1" []) tt)
  = (None,
     Some (mkResponse 404 "404 page not found"),
     Some (mkError RemoteError "404 page not found")) /\
  calls (run (ClientDo (HandleFunc "elsewhere" exampleReleaseRsp))
           (GetRelease Releases (GoInt 1) "v0.1" []) tt)
  = [mkRequest "GET" "projects/1/releases/v0.1" None None []].
Proof.
  destruct (transport_error_is_passed_through unit
              (ClientDo (HandleFunc "elsewhere" exampleReleaseRsp))
              Releases (GoInt 1) (OpGetRelease "v0.1") [] tt "1"
              (mkRequest "GET" "projects/1/releases/v0.1" None None [])
              (mkError RemoteError "404 page not found")
              eq_refl eq_refl eq_refl) as [Hr [Hc _]].
  split; [exact Hr | exact Hc].
Defined.

(** C10: whenever an operation returns an error that is not [nil], the
    result it returns is [nil], for every client, every executor (also one
    that fills the variable and fails) and every input. *)
Theorem error_implies_nil_result :
  forall (W : Type) (exec : Executor W) (s : ReleasesService) (pid : GoValue)
         (o : Operation) (options : list OptionFunc) (w : W),
    error_of (returned (run exec (perform s pid o options) w)) <> None ->
    result_of (returned (run exec (perform s pid o options) w)) = nil (decodes_into o).
Proof.
  intros W exec s pid o options w.
  rewrite perform_unfold.
  destruct (parseID pid) as [project|e]; [|reflexivity].
  destruct (NewRequest _ _ _ _ _) as [req|e]; [|reflexivity].
  rewrite run_Do, run_finish. unfold error_of, result_of. simpl.
  destruct (err _); [reflexivity|]. intros H. contradiction H. reflexivity.
Qed.

(** C10 on an executor that fills the variable and fails: the release it
    stored does not reach the caller. *)
Lemma error_implies_nil_result_witness :
  error_of (returned (run partialDecode (perform Releases (GoInt 1) (OpGetRelease "v0.1") []) tt))
  = Some (mkError DecodeError "unexpected end of JSON input") /\
  result_of (returned (run partialDecode (perform Releases (GoInt 1) (OpGetRelease "v0.1") []) tt))
  = None.
Proof.
  split; [reflexivity|].
  apply (error_implies_nil_result unit partialDecode Releases (GoInt 1)
           (OpGetRelease "v0.1") [] tt).
  discriminate.
Defined.

(* ------------------------------------------------------------------ *)
(** ** Strings: concatenation and containment *)

Section StringFacts.

Lemma append_assoc (a b c : string) : (a ++ b) ++ c = a ++ (b ++ c).
Proof.
  induction a as [|x a IH]; simpl; [reflexivity|]. now rewrite IH.
Qed.

Lemma append_nil_r (a : string) : a ++ EmptyString = a.
Proof.
  induction a as [|x a IH]; simpl; [reflexivity|]. now rewrite IH.
Qed.

Lemma length_append (a b : string) :
  String.length (a ++ b) = String.length a + String.length b.
Proof.
  induction a as [|x a IH]; simpl; [reflexivity|]. now rewrite IH.
Qed.

Lemma append_inv_tail (t a b : string) : a ++ t = b ++ t -> a = b.
Proof.
  revert b. induction a as [|x a IH]; intros [|y b] H; simpl in H.
  - reflexivity.
  - apply (f_equal String.length) in H. simpl in H. rewrite length_append in H. lia.
  - apply (f_equal String.length) in H. simpl in H. rewrite length_append in H. lia.
  - injection H as Hxy Hab. subst y. f_equal. now apply IH.
Qed.

Lemma contains_nil (n : string) : contains n EmptyString = prefix n EmptyString.
Proof.
  simpl. apply orb_false_r.
Qed.

Lemma contains_cons (n : string) (c : ascii) (h : string) :
  contains n (String c h) = prefix n (String c h) || contains n h.
Proof.
  reflexivity.
Qed.

Lemma prefix_append (n r : string) : prefix n (n ++ r) = true.
Proof.
  induction n as [|x n IH]; simpl; [now destruct r|].
  destruct (ascii_dec x x) as [_|H]; [exact IH | now contradiction H].
Qed.

Lemma prefix_extend (n a b : string) : prefix n a = true -> prefix n (a ++ b) = true.
Proof.
  revert a. induction n as [|x n IH]; intros a H.
  - now destruct (a ++ b).
  - destruct a as [|y a]; simpl in *; [discriminate|].
    destruct (ascii_dec x y); [now apply IH | discriminate].
Qed.

Lemma contains_prefix (n h : string) : prefix n h = true -> contains n h = true.
Proof.
  intros H. destruct h as [|c h].
  - now rewrite contains_nil.
  - now rewrite contains_cons, H.
Qed.

Lemma contains_append_r (n a b : string) :
  contains n b = true -> contains n (a ++ b) = true.
Proof.
  intros H. induction a as [|x a IH]; simpl; [exact H|].
  rewrite IH. apply orb_true_r.
Qed.

Lemma contains_append_l (n a b : string) :
  contains n a = true -> contains n (a ++ b) = true.
Proof.
  induction a as [|x a IH]; intros H.
  - rewrite contains_nil in H. apply contains_prefix.
    now apply (prefix_extend n EmptyString b).
  - rewrite contains_cons in H. simpl append. rewrite contains_cons.
    apply orb_true_iff in H. destruct H as [H|H].
    + pose proof (prefix_extend n (String x a) b H) as H'. simpl append in H'.
      now rewrite H'.
    + rewrite (IH H). apply orb_true_r.
Qed.

(** A needle sits in any text written around it. *)
Lemma contains_middle (n a b : string) : contains n (a ++ n ++ b) = true.
Proof.
  apply contains_append_r, contains_prefix, prefix_append.
Qed.

(** A byte that the needle does not hold cuts the search in two. *)
Lemma prefix_cut (n a b : string) (c : ascii) :
  mem c n = false -> prefix n (a ++ String c b) = prefix n a.
Proof.
  revert a. induction n as [|x n IH]; intros a Hc.
  - now destruct a.
  - simpl in Hc. apply orb_false_iff in Hc. destruct Hc as [Hx Hn].
    destruct a as [|y a]; simpl.
    + destruct (ascii_dec x c) as [->|_]; [|reflexivity].
      now rewrite Ascii.eqb_refl in Hx.
    + destruct (ascii_dec x y); [now apply IH | reflexivity].
Qed.

Lemma contains_cut (n a b : string) (c : ascii) :
  mem c n = false ->
  contains n (a ++ String c b) = contains n a || contains n b.
Proof.
  intros Hc. induction a as [|x a IH].
  - simpl append. rewrite contains_cons, contains_nil.
    pose proof (prefix_cut n EmptyString b c Hc) as H. simpl append in H.
    now rewrite H.
  - simpl append. rewrite !contains_cons, IH.
    pose proof (prefix_cut n (String x a) b c Hc) as H. simpl append in H.
    rewrite H. now rewrite orb_assoc.
Qed.

End StringFacts.

(* ------------------------------------------------------------------ *)
(** ** The project segment of the path *)

Section ProjectSegment.

Ltac each_byte c := destruct c as [[] [] [] [] [] [] [] []].

Lemma QueryEscape_cons_no_slash (c : ascii) (r : string) :
  mem "/" (url.QueryEscape (String c r)) = mem "/" (url.QueryEscape r).
Proof.
  each_byte c; reflexivity.
Qed.

(** The escaped project is one path segment. *)
Lemma QueryEscape_no_slash (s : string) : mem "/" (url.QueryEscape s) = false.
Proof.
  induction s as [|c r IH]; [reflexivity|].
  now rewrite QueryEscape_cons_no_slash.
Qed.

Lemma PathUnescape_QueryEscape_cons (c : ascii) (r : string) :
  url.PathUnescape (url.QueryEscape (String c r)) =
  option_map (String (if Ascii.eqb c " " then "+"%char else c))
    (url.PathUnescape (url.QueryEscape r)).
Proof.
  each_byte c; reflexivity.
Qed.

(** Percent-decoding undoes [url.QueryEscape] except on spaces. *)
Lemma PathUnescape_QueryEscape (s : string) :
  url.PathUnescape (url.QueryEscape s) = Some (plus_for_space s).
Proof.
  induction s as [|c r IH]; [reflexivity|].
  rewrite PathUnescape_QueryEscape_cons, IH. reflexivity.
Qed.

Lemma plus_for_space_fixed (s : string) :
  String.eqb (plus_for_space s) s = negb (mem " " s).
Proof.
  induction s as [|c r IH]; [reflexivity|].
  change (plus_for_space (String c r))
    with (String (if Ascii.eqb c " " then "+"%char else c) (plus_for_space r)).
  change (mem " " (String c r)) with (Ascii.eqb " " c || mem " " r).
  rewrite (Ascii.eqb_sym " " c).
  destruct (Ascii.eqb c " ") eqn:E.
  - apply Ascii.eqb_eq in E. subst c. reflexivity.
  - cbn [String.eqb orb]. rewrite Ascii.eqb_refl. exact IH.
Qed.

Lemma percent_encoded_QueryEscape (s : string) :
  url.percent_encoded_segment s (url.QueryEscape s) = negb (mem " " s).
Proof.
  unfold url.percent_encoded_segment.
  rewrite QueryEscape_no_slash, PathUnescape_QueryEscape. simpl.
  apply plus_for_space_fixed.
Qed.

End ProjectSegment.

(* ------------------------------------------------------------------ *)
(** ** Requests and decoded results *)

Section RequestsAndResults.

Lemma applyOptions_keeps (options : list OptionFunc) :
  Forall keeps_request_line options ->
  forall r r', applyOptions options r = Ok r' ->
  Method r' = Method r /\ Path r' = Path r.
Proof.
  induction 1 as [|fn rest Hfn _ IH]; intros r r' H; simpl in H.
  - injection H as <-. split; reflexivity.
  - destruct (fn r) as [r1|e] eqn:E; [|discriminate].
    destruct (Hfn r r1 E) as [Hm Hp]. destruct (IH r1 r' H) as [Hm' Hp'].
    split; congruence.
Qed.

(** A reply with a success status and a body that decodes: the operation
    returns the decoded value, the response and no error. *)
Lemma run_perform_success {W : Type} (server : Server W) (s : ReleasesService)
  (pid : GoValue) (o : Operation) (options : list OptionFunc) (w w' : W)
  (project : string) (req : Request) (status : Z) (body : string)
  (v : target (decodes_into o)) :
  parseID pid = Ok project ->
  NewRequest (client s) (table_method o) (table_path (url.QueryEscape project) o)
    (table_payload o) options = Ok req ->
  server req w = (Replied status body, w') ->
  success status = true ->
  Unmarshal (decodes_into o) body (nil (decodes_into o)) = Some v ->
  run (ClientDo server) (perform s pid o options) w =
  mkOutcome (v, Some (mkResponse status body), None) [req] w'.
Proof.
  intros Hid Hreq Hsrv Hok Hdec.
  rewrite (run_perform_built (ClientDo server) s pid o options w project req Hid Hreq).
  unfold ClientDo. rewrite Hsrv, Hok, Hdec. reflexivity.
Qed.

Lemma fold_set_None {X : Type} (set : string -> json.value -> X -> option X)
  (ms : list (string * json.value)) :
  fold_left
    (fun acc m => match acc with Some x => set (fst m) (snd m) x | None => None end)
    ms None = None.
Proof.
  induction ms as [|m ms IH]; [reflexivity | exact IH].
Qed.

Lemma set_keeps_TagName (k : string) (v : json.value) (r r' : Release.t) :
  equal_fold k "tag_name" = false ->
  Release.set k v r = Some r' ->
  Release.TagName r' = Release.TagName r.
Proof.
  intros Hk H. unfold Release.set in H. rewrite Hk in H.
  repeat match type of H with
         | (if ?c then _ else _) = _ => destruct c
         end;
    match type of H with
    | option_map _ ?x = _ => destruct x; simpl in H; [|discriminate]
    | _ => idtac
    end;
    injection H as <-; reflexivity.
Qed.

Lemma fold_set_keeps_TagName (ms : list (string * json.value)) :
  forallb (fun m => negb (equal_fold (fst m) "tag_name")) ms = true ->
  forall r r',
    fold_left
      (fun acc m => match acc with Some x => Release.set (fst m) (snd m) x | None => None end)
      ms (Some r) = Some r' ->
    Release.TagName r' = Release.TagName r.
Proof.
  induction ms as [|m ms IH]; intros Hall r r' H; simpl in *.
  - now injection H as <-.
  - apply andb_true_iff in Hall. destruct Hall as [Hm Hms].
    apply negb_true_iff in Hm.
    destruct (Release.set (fst m) (snd m) r) as [r1|] eqn:E.
    + rewrite (IH Hms r1 r' H). exact (set_keeps_TagName _ _ _ _ Hm E).
    + now rewrite fold_set_None in H.
Qed.

(** A JSON object that carries [tag] under [tag_name], with no later member
    under that key, decodes to a release with that tag name. *)
Lemma Unmarshal_TagName (ms1 ms2 : list (string * json.value)) (tag : string)
  (cur r : Release.t) :
  forallb (fun m => negb (equal_fold (fst m) "tag_name")) ms2 = true ->
  Release.Unmarshal (json.Object (ms1 ++ ("tag_name", json.Str tag) :: ms2)) cur = Some r ->
  Release.TagName r = tag.
Proof.
  intros Hall H. unfold Release.Unmarshal, json.into_struct in H.
  rewrite fold_left_app in H. simpl in H.
  match type of H with
  | fold_left _ ms2 (match ?a with _ => _ end) = _ => destruct a as [r1|]
  end.
  - unfold Release.set at 2 in H. simpl in H.
    now rewrite (fold_set_keeps_TagName ms2 Hall _ _ H).
  - now rewrite fold_set_None in H.
Qed.

Lemma UnmarshalPtr_Object (ms : list (string * json.value)) (r : Release.t) :
  Release.Unmarshal (json.Object ms) Release.zero = Some r ->
  Release.UnmarshalPtr (json.Object ms) None = Some (Some r).
Proof.
  intros H. unfold Release.UnmarshalPtr, json.into_ptr. now rewrite H.
Qed.

End RequestsAndResults.

(* ------------------------------------------------------------------ *)
(** ** GetRelease *)

(** C2, as stated, fails: were the project segment of the path always a
    percent-encoding of the project reference, the segment for the project
    [my project] would decode to it; the segment is [my+project], which
    decodes to itself. *)
Lemma GetRelease_segment_counterexample :
  ~ (forall (pid : GoValue) (project tag : string),
       parseID pid = Ok project ->
       exists seg : string,
         map Path
           (calls (run (ClientDo (HandleFunc "projects/1/releases/v0.1" exampleReleaseRsp))
                     (GetRelease Releases pid tag []) tt))
         = ["projects/" ++ seg ++ "/releases/" ++ tag] /\
         url.percent_encoded_segment project seg = true).
Proof.
  intros H.
  destruct (H (GoString "my project") "my project" "v0.1" eq_refl) as [seg [Hp Hs]].
  cbn in Hp. injection Hp as Hp.
  change "my+project/releases/v0.1"
    with ("my+project" ++ "/releases/v0.1") in Hp.
  apply append_inv_tail in Hp. subst seg.
  vm_compute in Hs. discriminate.
Qed.

(** The release a server echoes is what the client decodes. *)
Lemma echoes_decodes {W : Type} (server : Server W) (w w' : W) (req : Request)
  (status : Z) (body tag : string) (r : Release.t) :
  echoes server w req status body w' tag r ->
  Unmarshal IntoRelease body None = Some (Some r) /\ Release.TagName r = tag.
Proof.
  intros [_ [_ [ms1 [ms2 [Hparse [Hlast Hdec]]]]]]. split.
  - unfold Unmarshal. rewrite Hparse. now apply UnmarshalPtr_Object.
  - exact (Unmarshal_TagName ms1 ms2 tag Release.zero r Hlast Hdec).
Qed.

(** The test server echoes [v0.1] with the fixture. *)
Lemma example_echoes (req : Request) :
  echoes (HandleFunc (Path req) exampleReleaseRsp) tt req 200 exampleReleaseRsp tt
    "v0.1" exampleRelease.
Proof.
  split; [|split; [reflexivity|]].
  - unfold HandleFunc. now rewrite String.eqb_refl.
  - exists [].
    let j := eval vm_compute in (json.parse exampleReleaseRsp) in
    match j with
    | Some (json.Object (_ :: ?ms2)) => exists ms2
    end.
    split; [vm_compute; reflexivity|].
    split; vm_compute; reflexivity.
Qed.

(** C2, amended: for a project reference that [parseID] accepts, and per-call
    options that leave the request line alone, [GetRelease] hands exactly one
    request to [Do]; it is a GET of
    [projects/{QueryEscape(project)}/releases/{tag}], with the tag copied as
    it is.  The escaped project holds no [/] and percent-decodes to the
    project with a [+] for every space, so it is a percent-encoded path
    segment exactly when the reference has no space.  When the server echoes
    the tag, the operation returns the release decoded from the reply, whose
    [TagName] is the tag, with the response and no error. *)
Theorem GetRelease_request_and_result :
  forall (W : Type) (server : Server W) (w : W) (pid : GoValue)
         (project tag : string) (options : list OptionFunc) (req : Request),
    parseID pid = Ok project ->
    Forall keeps_request_line options ->
    NewRequest (client Releases) "GET"
      ("projects/" ++ url.QueryEscape project ++ "/releases/" ++ tag) NoOptions options
    = Ok req ->
    calls (run (ClientDo server) (GetRelease Releases pid tag options) w) = [req] /\
    Method req = "GET" /\
    Path req = "projects/" ++ url.QueryEscape project ++ "/releases/" ++ tag /\
    mem "/" (url.QueryEscape project) = false /\
    url.PathUnescape (url.QueryEscape project) = Some (plus_for_space project) /\
    url.percent_encoded_segment project (url.QueryEscape project)
    = negb (mem " " project) /\
    (forall (status : Z) (body : string) (w' : W) (r : Release.t),
        echoes server w req status body w' tag r ->
        returned (run (ClientDo server) (GetRelease Releases pid tag options) w)
        = (Some r, Some (mkResponse status body), None) /\
        Release.TagName r = tag).
Proof.
  intros W server w pid project tag options req Hid Hkeep Hreq.
  pose proof (run_perform_built (ClientDo server) Releases pid (OpGetRelease tag)
                options w project req Hid Hreq) as Hrun.
  cbn [perform decodes_into target nil] in Hrun.
  destruct (applyOptions_keeps options Hkeep _ _ Hreq) as [Hm Hp].
  split; [rewrite Hrun; reflexivity|].
  split; [exact Hm|]. split; [exact Hp|].
  split; [apply QueryEscape_no_slash|].
  split; [apply PathUnescape_QueryEscape|].
  split; [apply percent_encoded_QueryEscape|].
  intros status body w' r Hecho.
  destruct (echoes_decodes server w w' req status body tag r Hecho) as [Hdec Htag].
  destruct Hecho as [Hsrv [Hok _]].
  pose proof (run_perform_success server Releases pid (OpGetRelease tag) options
                w w' project req status body (Some r) Hid Hreq Hsrv Hok Hdec) as Hret.
  cbn [perform decodes_into target nil] in Hret. rewrite Hret.
  split; [reflexivity | exact Htag].
Qed.

(** C2 on the test of releases_test.go: project 1, tag [v0.1], and the server
    that answers with the fixture. *)
Lemma GetRelease_witness :
  calls (run (ClientDo (HandleFunc "projects/1/releases/v0.1" exampleReleaseRsp))
           (GetRelease Releases (GoInt 1) "v0.1" []) tt)
  = [mkRequest "GET" "projects/1/releases/v0.1" None None []] /\
  returned (run (ClientDo (HandleFunc "projects/1/releases/v0.1" exampleReleaseRsp))
              (GetRelease Releases (GoInt 1) "v0.1" []) tt)
  = (Some exampleRelease, Some (mkResponse 200 exampleReleaseRsp), None) /\
  Release.TagName exampleRelease = "v0.1".
Proof.
  destruct (GetRelease_request_and_result unit
              (HandleFunc "projects/1/releases/v0.1" exampleReleaseRsp) tt
              (GoInt 1) "1" "v0.1" []
              (mkRequest "GET" "projects/1/releases/v0.1" None None [])
              eq_refl (Forall_nil _) eq_refl)
    as [Hcalls [_ [_ [_ [_ [_ Hecho]]]]]].
  split; [exact Hcalls|].
  exact (Hecho 200%Z exampleReleaseRsp tt exampleRelease
           (example_echoes (mkRequest "GET" "projects/1/releases/v0.1" None None []))).
Defined.

(* ------------------------------------------------------------------ *)
(** ** The interface table *)

(** C4: called without per-call options on a project reference that
    [parseID] accepts, each operation hands exactly one request to [Do], with
    the method and the path of the interface table: [ListReleases] a GET and
    [CreateRelease] a POST of [projects/{project}/releases]; [GetRelease] a
    GET, [UpdateRelease] a PUT and [DeleteRelease] a DELETE of
    [projects/{project}/releases/{tag}].  When the server echoes a tag,
    [CreateRelease], [UpdateRelease] and [DeleteRelease] return the release
    decoded from the reply, whose [TagName] is that tag. *)
Theorem operations_follow_interface_table :
  forall (W : Type) (server : Server W) (w : W) (pid : GoValue) (project : string)
         (opt : option ListReleasesOptions) (tag : string)
         (copts : option CreateReleaseOptions.t) (uopts : option UpdateReleaseOptions.t),
    parseID pid = Ok project ->
    calls (run (ClientDo server) (ListReleases Releases pid opt []) w)
    = [mkRequest "GET" ("projects/" ++ url.QueryEscape project ++ "/releases")
         opt None []] /\
    calls (run (ClientDo server) (GetRelease Releases pid tag []) w)
    = [mkRequest "GET" ("projects/" ++ url.QueryEscape project ++ "/releases/" ++ tag)
         None None []] /\
    calls (run (ClientDo server) (CreateRelease Releases pid copts []) w)
    = [mkRequest "POST" ("projects/" ++ url.QueryEscape project ++ "/releases")
         None (body_of (CreateOpts copts)) []] /\
    calls (run (ClientDo server) (UpdateRelease Releases pid tag uopts []) w)
    = [mkRequest "PUT" ("projects/" ++ url.QueryEscape project ++ "/releases/" ++ tag)
         None (body_of (UpdateOpts uopts)) []] /\
    calls (run (ClientDo server) (DeleteRelease Releases pid tag []) w)
    = [mkRequest "DELETE" ("projects/" ++ url.QueryEscape project ++ "/releases/" ++ tag)
         None None []] /\
    (forall (status : Z) (body : string) (w' : W) (echo : string) (r : Release.t),
        echoes server w
          (mkRequest "POST" ("projects/" ++ url.QueryEscape project ++ "/releases")
             None (body_of (CreateOpts copts)) [])
          status body w' echo r ->
        returned (run (ClientDo server) (CreateRelease Releases pid copts []) w)
        = (Some r, Some (mkResponse status body), None) /\
        Release.TagName r = echo) /\
    (forall (status : Z) (body : string) (w' : W) (echo : string) (r : Release.t),
        echoes server w
          (mkRequest "PUT" ("projects/" ++ url.QueryEscape project ++ "/releases/" ++ tag)
             None (body_of (UpdateOpts uopts)) [])
          status body w' echo r ->
        returned (run (ClientDo server) (UpdateRelease Releases pid tag uopts []) w)
        = (Some r, Some (mkResponse status body), None) /\
        Release.TagName r = echo) /\
    (forall (status : Z) (body : string) (w' : W) (echo : string) (r : Release.t),
        echoes server w
          (mkRequest "DELETE" ("projects/" ++ url.QueryEscape project ++ "/releases/" ++ tag)
             None None [])
          status body w' echo r ->
        returned (run (ClientDo server) (DeleteRelease Releases pid tag []) w)
        = (Some r, Some (mkResponse status body), None) /\
        Release.TagName r = echo).
Proof.
  intros W server w pid project opt tag copts uopts Hid.
  assert (Hcalls : forall o : Operation,
             calls (run (ClientDo server) (perform Releases pid o []) w)
             = [baseRequest (table_method o) (table_path (url.QueryEscape project) o)
                  (table_payload o)]).
  { intros o.
    now rewrite (run_perform_built (ClientDo server) Releases pid o [] w project _
                   Hid eq_refl). }
  split; [exact (Hcalls (OpListReleases opt))|].
  split; [exact (Hcalls (OpGetRelease tag))|].
  split; [exact (Hcalls (OpCreateRelease copts))|].
  split; [exact (Hcalls (OpUpdateRelease tag uopts))|].
  split; [exact (Hcalls (OpDeleteRelease tag))|].
  split; [|split]; intros status body w' echo r He;
    destruct (echoes_decodes server w w' _ status body echo r He) as [Hdec Htag];
    destruct He as [Hsrv [Hok _]];
    (split; [|exact Htag]).
  - pose proof (run_perform_success server Releases pid (OpCreateRelease copts) []
                  w w' project _ status body (Some r) Hid eq_refl Hsrv Hok Hdec) as Hret.
    cbn [perform decodes_into target nil] in Hret. now rewrite Hret.
  - pose proof (run_perform_success server Releases pid (OpUpdateRelease tag uopts) []
                  w w' project _ status body (Some r) Hid eq_refl Hsrv Hok Hdec) as Hret.
    cbn [perform decodes_into target nil] in Hret. now rewrite Hret.
  - pose proof (run_perform_success server Releases pid (OpDeleteRelease tag) []
                  w w' project _ status body (Some r) Hid eq_refl Hsrv Hok Hdec) as Hret.
    cbn [perform decodes_into target nil] in Hret. now rewrite Hret.
Qed.

(** C4 on the tests of releases_test.go: project 1, tag [v0.1], the options
    of the tests and the servers that answer with the fixture. *)
Lemma interface_table_witness :
  (map Method
     (calls (run (ClientDo (HandleFunc "projects/1/releases" exampleReleaseRsp))
               (CreateRelease Releases (GoInt 1) (Some testCreateOptions) []) tt))
   = ["POST"] /\
   returned (run (ClientDo (HandleFunc "projects/1/releases" exampleReleaseRsp))
               (CreateRelease Releases (GoInt 1) (Some testCreateOptions) []) tt)
   = (Some exampleRelease, Some (mkResponse 200 exampleReleaseRsp), None)) /\
  (map Method
     (calls (run (ClientDo (HandleFunc "projects/1/releases/v0.1" exampleReleaseRsp))
               (UpdateRelease Releases (GoInt 1) "v0.1" (Some testUpdateOptions) []) tt))
   = ["PUT"] /\
   returned (run (ClientDo (HandleFunc "projects/1/releases/v0.1" exampleReleaseRsp))
               (UpdateRelease Releases (GoInt 1) "v0.1" (Some testUpdateOptions) []) tt)
   = (Some exampleRelease, Some (mkResponse 200 exampleReleaseRsp), None)) /\
  (map Method
     (calls (run (ClientDo (HandleFunc "projects/1/releases/v0.1" exampleReleaseRsp))
               (DeleteRelease Releases (GoInt 1) "v0.1" []) tt))
   = ["DELETE"] /\
   returned (run (ClientDo (HandleFunc "projects/1/releases/v0.1" exampleReleaseRsp))
               (DeleteRelease Releases (GoInt 1) "v0.1" []) tt)
   = (Some exampleRelease, Some (mkResponse 200 exampleReleaseRsp), None)) /\
  Release.TagName exampleRelease = "v0.1".
Proof.
  destruct (operations_follow_interface_table unit
              (HandleFunc "projects/1/releases" exampleReleaseRsp) tt (GoInt 1) "1"
              None "v0.1" (Some testCreateOptions) (Some testUpdateOptions) eq_refl)
    as [_ [_ [Hc [_ [_ [Hcreate _]]]]]].
  destruct (operations_follow_interface_table unit
              (HandleFunc "projects/1/releases/v0.1" exampleReleaseRsp) tt (GoInt 1) "1"
              None "v0.1" (Some testCreateOptions) (Some testUpdateOptions) eq_refl)
    as [_ [_ [_ [Hu [Hd [_ [Hupdate Hdelete]]]]]]].
  split; [|split; [|split]].
  - split; [rewrite Hc; reflexivity|].
    exact (proj1 (Hcreate 200%Z exampleReleaseRsp tt "v0.1" exampleRelease
                    (example_echoes
                       (mkRequest "POST" "projects/1/releases" None
                       (body_of (CreateOpts (Some testCreateOptions))) [])))).
  - split; [rewrite Hu; reflexivity|].
    exact (proj1 (Hupdate 200%Z exampleReleaseRsp tt "v0.1" exampleRelease
                    (example_echoes
                       (mkRequest "PUT" "projects/1/releases/v0.1" None
                       (body_of (UpdateOpts (Some testUpdateOptions))) [])))).
  - split; [rewrite Hd; reflexivity|].
    exact (proj1 (Hdelete 200%Z exampleReleaseRsp tt "v0.1" exampleRelease
                    (example_echoes
                       (mkRequest "DELETE" "projects/1/releases/v0.1" None None [])))).
  - exact (proj2 (Hdelete 200%Z exampleReleaseRsp tt "v0.1" exampleRelease
                    (example_echoes
                       (mkRequest "DELETE" "projects/1/releases/v0.1" None None [])))).
Defined.

(* ------------------------------------------------------------------ *)
(** ** ListReleases *)

(** The elements of an array of release objects decode one by one, in the
    order of the array. *)
Lemma UnmarshalSlice_in_order (js : list json.value) (rs : list Release.t) :
  Forall2
    (fun j r => exists ms, j = json.Object ms /\ Release.Unmarshal j Release.zero = Some r)
    js rs ->
  Release.UnmarshalSlice (json.Array js) None = Some (Some (map Some rs)).
Proof.
  intros H. unfold Release.UnmarshalSlice, json.into_slice.
  assert (E : json.into_elems None Release.UnmarshalPtr js [] = Some (map Some rs)).
  { induction H as [|j r js rs [ms [-> Hr]] _ IH]; [reflexivity|].
    cbn [json.into_elems hd tl map].
    rewrite (UnmarshalPtr_Object ms r Hr), IH. reflexivity. }
  now rewrite E.
Qed.

(** C6: when the server answers [ListReleases] with a success status and a
    JSON array of two release objects, the operation returns exactly two
    releases, the first decoded from the first object and the second from
    the second, with the response and no error. *)
Theorem ListReleases_keeps_server_order :
  forall (W : Type) (server : Server W) (w w' : W) (pid : GoValue) (project : string)
         (opt : option ListReleasesOptions) (status : Z) (body : string)
         (ms1 ms2 : list (string * json.value)) (r1 r2 : Release.t),
    parseID pid = Ok project ->
    server
      (mkRequest "GET" ("projects/" ++ url.QueryEscape project ++ "/releases") opt None [])
      w = (Replied status body, w') ->
    success status = true ->
    json.parse body = Some (json.Array [json.Object ms1; json.Object ms2]) ->
    Release.Unmarshal (json.Object ms1) Release.zero = Some r1 ->
    Release.Unmarshal (json.Object ms2) Release.zero = Some r2 ->
    returned (run (ClientDo server) (ListReleases Releases pid opt []) w)
    = (Some [Some r1; Some r2], Some (mkResponse status body), None).
Proof.
  intros W server w w' pid project opt status body ms1 ms2 r1 r2
    Hid Hsrv Hok Hparse H1 H2.
  pose proof (run_perform_success server Releases pid (OpListReleases opt) []
                w w' project _ status body (Some [Some r1; Some r2])
                Hid eq_refl Hsrv Hok) as Hret.
  cbn [perform decodes_into target nil] in Hret. rewrite Hret; [reflexivity|].
  unfold Unmarshal. rewrite Hparse.
  apply (UnmarshalSlice_in_order [json.Object ms1; json.Object ms2] [r1; r2]).
  repeat constructor; eexists; split; (reflexivity || eassumption).
Qed.

(** C6 on [TestReleasesService_ListReleases]: the fixture holds [v0.2] and
    then [v0.1], and so does the result. *)
Lemma ListReleases_witness :
  map (option_map Release.TagName)
    (match
        result_of
          (returned
             (run (ClientDo (HandleFunc "projects/1/releases" exampleReleaseListRsp))
                (ListReleases Releases (GoInt 1) (Some (ListOptions.mk 0 0)) []) tt))
      with
      | Some l => l
      | None => []
      end)
  = [Some "v0.2"; Some "v0.1"].
Proof.
  let j := eval vm_compute in (json.parse exampleReleaseListRsp) in
  match j with
  | Some (json.Array [json.Object ?ms1; json.Object ?ms2]) =>
      let a := eval vm_compute in (Release.Unmarshal (json.Object ms1) Release.zero) in
      let b := eval vm_compute in (Release.Unmarshal (json.Object ms2) Release.zero) in
      match constr:((a, b)) with
      | (Some ?r1, Some ?r2) =>
          rewrite (ListReleases_keeps_server_order unit
                     (HandleFunc "projects/1/releases" exampleReleaseListRsp) tt tt
                     (GoInt 1) "1" (Some (ListOptions.mk 0 0)) 200%Z
                     exampleReleaseListRsp ms1 ms2 r1 r2);
          [ reflexivity | reflexivity | reflexivity | reflexivity
          | vm_compute; reflexivity | vm_compute; reflexivity | vm_compute; reflexivity ]
      end
  end.
Defined.

(* ------------------------------------------------------------------ *)
(** ** The body of CreateRelease *)

Section CreateBody.

(** The text of the body: the three members that are always written, then
    [ref] unless it is empty, then [assets] unless it is [nil]. *)
Lemma create_body_text (o : CreateReleaseOptions.t) :
  json.encode (CreateReleaseOptions.Marshal o) =
  "{" ++ member_text "name" (CreateReleaseOptions.Name o)
  ++ "," ++ member_text "tag_name" (CreateReleaseOptions.TagName o)
  ++ "," ++ member_text "description" (CreateReleaseOptions.Description o)
  ++ (if json.is_empty (CreateReleaseOptions.Ref o) then EmptyString
      else "," ++ member_text "ref" (CreateReleaseOptions.Ref o))
  ++ match CreateReleaseOptions.Assets o with
     | None => EmptyString
     | Some a => "," ++ quoted "assets" ++ ":" ++ json.encode (ReleaseAssets.Marshal a)
     end
  ++ "}".
Proof.
  destruct o as [n t d r a].
  unfold CreateReleaseOptions.Marshal, member_text.
  cbn [CreateReleaseOptions.Name CreateReleaseOptions.TagName
       CreateReleaseOptions.Description CreateReleaseOptions.Ref
       CreateReleaseOptions.Assets].
  destruct a as [a|]; [generalize (ReleaseAssets.Marshal a); intros v|];
    destruct (json.is_empty r); simpl;
    repeat (rewrite !append_assoc; simpl); reflexivity.
Qed.

Lemma create_body_without_assets (o : CreateReleaseOptions.t) :
  CreateReleaseOptions.Assets o = None ->
  json.encode (CreateReleaseOptions.Marshal o) =
  "{" ++ member_text "name" (CreateReleaseOptions.Name o)
  ++ "," ++ member_text "tag_name" (CreateReleaseOptions.TagName o)
  ++ "," ++ member_text "description" (CreateReleaseOptions.Description o)
  ++ (if json.is_empty (CreateReleaseOptions.Ref o) then EmptyString
      else "," ++ member_text "ref" (CreateReleaseOptions.Ref o))
  ++ "}".
Proof.
  intros H. rewrite create_body_text, H. reflexivity.
Qed.

(** *** Reading back what was written *)

Ltac each_byte c := destruct c as [[] [] [] [] [] [] [] []].

Lemma unquote_encode_byte (c : ascii) (x : string) :
  json.unquote None (json.encode_byte c ++ x) =
  json.emit (String c EmptyString) (json.unquote None x).
Proof.
  each_byte c; reflexivity.
Qed.

(** The decoder reads an encoded string literal back to the string. *)
Lemma unquote_encode_bytes (s rest : string) :
  json.unquote None (json.encode_bytes s ++ String dquote rest) = Some (s, rest).
Proof.
  induction s as [|c s IH]; [reflexivity|].
  cbn [json.encode_bytes]. rewrite append_assoc, unquote_encode_byte, IH. reflexivity.
Qed.

Lemma skip_space_cons (c : ascii) (x : string) :
  json.is_space c = false -> json.skip_space (String c x) = String c x.
Proof.
  intros H. cbn [json.skip_space]. now rewrite H.
Qed.

Ltac step := cbv iota; simpl (Ascii.eqb _ _); cbv iota.

Lemma parse_value_string (f : nat) (s rest : string) :
  json.parse_value (S f) (json.encode_string s ++ rest) = Some (json.Str s, rest).
Proof.
  unfold json.encode_string, quoted. cbn [append]. rewrite append_assoc. cbn [append].
  cbn [json.parse_value]. rewrite skip_space_cons by reflexivity. step.
  now rewrite unquote_encode_bytes.
Qed.

(** A member with a string value, followed by another member. *)
Lemma parse_members_more (n : nat) (f : nat) (k s rest : string) :
  json.parse_members (S n) (json.parse_value (S f))
    (json.encode_string k ++ String ":" (json.encode_string s ++ String "," rest))
  = match json.parse_members n (json.parse_value (S f)) rest with
    | Some (ms, r) => Some ((k, json.Str s) :: ms, r)
    | None => None
    end.
Proof.
  unfold json.encode_string at 1. unfold quoted.
  cbn [append]. rewrite append_assoc. cbn [append].
  cbn [json.parse_members]. rewrite skip_space_cons by reflexivity. step.
  rewrite unquote_encode_bytes, skip_space_cons by reflexivity. step.
  rewrite parse_value_string, skip_space_cons by reflexivity. step.
  reflexivity.
Qed.

(** A member with a string value, the last of its object. *)
Lemma parse_members_last (n : nat) (f : nat) (k s rest : string) :
  json.parse_members (S n) (json.parse_value (S f))
    (json.encode_string k ++ String ":" (json.encode_string s ++ String "}" rest))
  = Some ([(k, json.Str s)], rest).
Proof.
  unfold json.encode_string at 1. unfold quoted.
  cbn [append]. rewrite append_assoc. cbn [append].
  cbn [json.parse_members]. rewrite skip_space_cons by reflexivity. step.
  rewrite unquote_encode_bytes, skip_space_cons by reflexivity. step.
  rewrite parse_value_string, skip_space_cons by reflexivity. step.
  reflexivity.
Qed.

Lemma parse_object (f : nat) (k body rest : string) (ms : list (string * json.value)) :
  json.parse_members f (json.parse_value f) (json.encode_string k ++ body) = Some (ms, rest) ->
  json.parse_value (S f) (String "{" (json.encode_string k ++ body))
  = Some (json.Object ms, rest).
Proof.
  unfold json.encode_string, quoted. cbn [append].
  intros H. cbn [json.parse_value]. rewrite !skip_space_cons by reflexivity. step.
  now rewrite H.
Qed.

(** The text of an object with two members or more is long enough for the
    decoder's bound on nesting not to matter. *)
Ltac long_enough :=
  unfold member_text, json.encode_string, quoted;
  rewrite ?length_append; cbn [String.length];
  rewrite ?length_append; cbn [String.length];
  eexists; repeat rewrite <- plus_n_Sm; cbn [Nat.add]; reflexivity.

(** The body of [CreateRelease] without assets reads back as the object that
    was written. *)
Lemma parse_create_body (o : CreateReleaseOptions.t) :
  CreateReleaseOptions.Assets o = None ->
  json.parse (json.encode (CreateReleaseOptions.Marshal o))
  = Some (CreateReleaseOptions.Marshal o).
Proof.
  intros Hnil. unfold json.parse.
  assert (Hlen : exists m, String.length (json.encode (CreateReleaseOptions.Marshal o))
                           = S (S (S (S (S m))))).
  { rewrite create_body_text. long_enough. }
  destruct Hlen as [m ->].
  rewrite create_body_text, Hnil. unfold CreateReleaseOptions.Marshal. rewrite Hnil.
  unfold member_text.
  change (quoted "name") with (json.encode_string "name").
  change (quoted "tag_name") with (json.encode_string "tag_name").
  change (quoted "description") with (json.encode_string "description").
  change (quoted "ref") with (json.encode_string "ref").
  destruct (json.is_empty (CreateReleaseOptions.Ref o));
    repeat rewrite append_assoc; cbn [append];
    (erewrite (parse_object (S (S (S (S (S m))))) "name" _ EmptyString);
     [reflexivity|]);
    rewrite !parse_members_more, parse_members_last; reflexivity.
Qed.

(** An object of two string members reads back as it was written. *)
Lemma parse_two_members (k1 v1 k2 v2 : string) :
  json.parse (json.encode (json.Object [(k1, json.Str v1); (k2, json.Str v2)]))
  = Some (json.Object [(k1, json.Str v1); (k2, json.Str v2)]).
Proof.
  unfold json.parse.
  cbn [json.encode map String.concat fst snd].
  assert (Hlen : exists m,
             String.length
               ("{" ++ ((json.encode_string k1 ++ ":" ++ json.encode_string v1)
                        ++ "," ++ json.encode_string k2 ++ ":" ++ json.encode_string v2)
                ++ "}") = S (S (S (S m)))).
  { long_enough. }
  destruct Hlen as [m ->].
  repeat rewrite append_assoc; cbn [append].
  erewrite (parse_object (S (S (S (S m)))) k1 _ EmptyString); [reflexivity|].
  rewrite parse_members_more, parse_members_last. reflexivity.
Qed.

Lemma contains_cons_r (n h : string) (c : ascii) :
  contains n h = true -> contains n (String c h) = true.
Proof.
  intros H. rewrite contains_cons, H. apply orb_true_r.
Qed.

(** Step by step through a text: a literal byte, or a part that ends at a
    double quote. *)
Ltac scan_for_assets :=
  repeat first
    [ rewrite (contains_cut "assets" _ _ dquote) by reflexivity
    | rewrite contains_cons; simpl (prefix _ _); rewrite ?orb_false_l
    | rewrite contains_nil; simpl (prefix _ _) ].

(** Without [Assets], the text [assets] is in the body only where the
    encoded value of a field holds it. *)
Lemma create_body_contains (o : CreateReleaseOptions.t) :
  CreateReleaseOptions.Assets o = None ->
  contains "assets" (json.encode (CreateReleaseOptions.Marshal o)) =
  contains "assets" (json.encode_bytes (CreateReleaseOptions.Name o))
  || contains "assets" (json.encode_bytes (CreateReleaseOptions.TagName o))
  || contains "assets" (json.encode_bytes (CreateReleaseOptions.Description o))
  || contains "assets" (json.encode_bytes (CreateReleaseOptions.Ref o)).
Proof.
  intros Hnil. rewrite (create_body_without_assets o Hnil).
  unfold member_text, json.encode_string, quoted.
  destruct o as [n t d r a].
  cbn [CreateReleaseOptions.Name CreateReleaseOptions.TagName
       CreateReleaseOptions.Description CreateReleaseOptions.Ref].
  cbn [append]. repeat rewrite append_assoc. cbn [append].
  scan_for_assets.
  destruct r as [|c r].
  - cbn [json.is_empty append json.encode_bytes]. scan_for_assets.
    now rewrite !orb_assoc.
  - set (er := json.encode_bytes (String c r)).
    cbn [json.is_empty append]. repeat rewrite append_assoc. cbn [append].
    scan_for_assets. now rewrite !orb_false_r, !orb_assoc.
Qed.

(** With [Assets], the key is written. *)
Lemma create_body_with_assets (o : CreateReleaseOptions.t) (a : ReleaseAssets.t) :
  CreateReleaseOptions.Assets o = Some a ->
  contains (quoted "assets") (json.encode (CreateReleaseOptions.Marshal o)) = true.
Proof.
  intros H. rewrite create_body_text, H.
  do 7 apply contains_append_r.
  apply contains_append_l.
  apply (contains_middle (quoted "assets") ",").
Qed.

End CreateBody.

(** C3, as stated, fails: with [Assets] unset and the release named
    [assets], the body of the request holds the text [assets], between
    double quotes even. *)
Lemma CreateRelease_assets_counterexample :
  ~ (forall o : CreateReleaseOptions.t,
       CreateReleaseOptions.Assets o = None ->
       forall body : string,
         map Body
           (calls (run (ClientDo (HandleFunc "projects/1/releases" exampleReleaseRsp))
                     (CreateRelease Releases (GoInt 1) (Some o) []) tt))
         = [Some body] ->
         contains (quoted "assets") body = false).
Proof.
  intros H.
  pose proof (H (CreateReleaseOptions.mk "assets" "v0.1" "Description" EmptyString None)
                eq_refl
                (json.encode
                   (CreateReleaseOptions.Marshal
                      (CreateReleaseOptions.mk "assets" "v0.1" "Description"
                         EmptyString None)))) as H1.
  assert (E : contains (quoted "assets")
                (json.encode
                   (CreateReleaseOptions.Marshal
                      (CreateReleaseOptions.mk "assets" "v0.1" "Description"
                         EmptyString None))) = true)
    by (vm_compute; reflexivity).
  rewrite H1 in E; [discriminate|].
  vm_compute. reflexivity.
Qed.

(** C3, amended: [CreateRelease] sends [json.Marshal] of its options as the
    body of its one request.  With [Assets] unset the object has the keys
    [name], [tag_name], [description] and, unless [Ref] is empty, [ref], and
    no key [assets]: the body reads back as that object, with no member
    [assets]; its text is those members and nothing else, so it holds the
    text [assets] only where the encoded value of one of the four fields
    holds it.  With [Assets] set, the object has the member [assets] and the
    body holds the key between double quotes. *)
Theorem CreateRelease_assets_key :
  forall (W : Type) (exec : Executor W) (w : W) (pid : GoValue) (project : string)
         (o : CreateReleaseOptions.t),
    parseID pid = Ok project ->
    exists body : string,
      calls (run exec (CreateRelease Releases pid (Some o) []) w)
      = [mkRequest "POST" ("projects/" ++ url.QueryEscape project ++ "/releases")
           None (Some body) []] /\
      body = json.encode (CreateReleaseOptions.Marshal o) /\
      (CreateReleaseOptions.Assets o = None ->
       json.keys (CreateReleaseOptions.Marshal o)
       = (["name"; "tag_name"; "description"]
            ++ (if json.is_empty (CreateReleaseOptions.Ref o) then [] else ["ref"]))%list /\
       ~ In "assets" (json.keys (CreateReleaseOptions.Marshal o)) /\
       json.parse body = Some (CreateReleaseOptions.Marshal o) /\
       option_map (json.field "assets") (json.parse body) = Some None /\
       body =
       "{" ++ member_text "name" (CreateReleaseOptions.Name o)
       ++ "," ++ member_text "tag_name" (CreateReleaseOptions.TagName o)
       ++ "," ++ member_text "description" (CreateReleaseOptions.Description o)
       ++ (if json.is_empty (CreateReleaseOptions.Ref o) then EmptyString
           else "," ++ member_text "ref" (CreateReleaseOptions.Ref o))
       ++ "}" /\
       contains "assets" body =
       contains "assets" (json.encode_bytes (CreateReleaseOptions.Name o))
       || contains "assets" (json.encode_bytes (CreateReleaseOptions.TagName o))
       || contains "assets" (json.encode_bytes (CreateReleaseOptions.Description o))
       || contains "assets" (json.encode_bytes (CreateReleaseOptions.Ref o))) /\
      (forall a : ReleaseAssets.t,
          CreateReleaseOptions.Assets o = Some a ->
          json.field "assets" (CreateReleaseOptions.Marshal o)
          = Some (ReleaseAssets.Marshal a) /\
          contains (quoted "assets") body = true).
Proof.
  intros W exec w pid project o Hid.
  exists (json.encode (CreateReleaseOptions.Marshal o)).
  split.
  { pose proof (run_perform_built exec Releases pid (OpCreateRelease (Some o)) []
                  w project _ Hid eq_refl) as Hrun.
    cbn [perform decodes_into target nil] in Hrun. rewrite Hrun. reflexivity. }
  split; [reflexivity|]. split.
  - intros Hnil.
    assert (Hkeys : json.keys (CreateReleaseOptions.Marshal o)
                    = (["name"; "tag_name"; "description"]
                         ++ (if json.is_empty (CreateReleaseOptions.Ref o)
                             then [] else ["ref"]))%list).
    { unfold CreateReleaseOptions.Marshal. rewrite Hnil.
      destruct (json.is_empty (CreateReleaseOptions.Ref o)); reflexivity. }
    split; [exact Hkeys|]. split.
    + rewrite Hkeys.
      destruct (json.is_empty (CreateReleaseOptions.Ref o)); simpl;
        intros Hin; repeat (destruct Hin as [Hin|Hin]; [discriminate Hin|]);
        exact Hin.
    + split; [exact (parse_create_body o Hnil)|].
      split.
      { rewrite (parse_create_body o Hnil). unfold CreateReleaseOptions.Marshal.
        rewrite Hnil.
        destruct (json.is_empty (CreateReleaseOptions.Ref o)); reflexivity. }
      split; [exact (create_body_without_assets o Hnil)
             | exact (create_body_contains o Hnil)].
  - intros a Ha. split; [|exact (create_body_with_assets o a Ha)].
    unfold CreateReleaseOptions.Marshal. rewrite Ha.
    destruct (json.is_empty (CreateReleaseOptions.Ref o)); reflexivity.
Qed.

(** C3 on the two tests of releases_test.go: the body for the options without
    assets does not hold [assets], the body for the options with one link
    does. *)
Lemma CreateRelease_assets_witness :
  (exists body : string,
      map Body
        (calls (run (ClientDo (HandleFunc "projects/1/releases" exampleReleaseRsp))
                  (CreateRelease Releases (GoInt 1) (Some testCreateOptions) []) tt))
      = [Some body] /\
      contains "assets" body = false) /\
  (exists body : string,
      map Body
        (calls (run (ClientDo (HandleFunc "projects/1/releases" exampleReleaseRsp))
                  (CreateRelease Releases (GoInt 1) (Some testCreateOptionsWithAsset) []) tt))
      = [Some body] /\
      contains "assets" body = true).
Proof.
  split.
  - destruct (CreateRelease_assets_key unit
                (ClientDo (HandleFunc "projects/1/releases" exampleReleaseRsp)) tt
                (GoInt 1) "1" testCreateOptions eq_refl)
      as [body [Hcalls [_ [Hnil _]]]].
    exists body. split; [rewrite Hcalls; reflexivity|].
    destruct (Hnil eq_refl) as [_ [_ [_ [_ [_ Hc]]]]]. rewrite Hc. vm_compute. reflexivity.
  - destruct (CreateRelease_assets_key unit
                (ClientDo (HandleFunc "projects/1/releases" exampleReleaseRsp)) tt
                (GoInt 1) "1" testCreateOptionsWithAsset eq_refl)
      as [body [Hcalls [Hbody _]]].
    exists body. split; [rewrite Hcalls; reflexivity|].
    rewrite Hbody. vm_compute. reflexivity.
Defined.

(* ------------------------------------------------------------------ *)
(** ** The body of UpdateRelease *)

(** C7: [UpdateRelease] sends one PUT whose body is a JSON object with the
    members [name] and [description], in that order and nothing else, and
    reads back as that object; the tag is in the path only, and the body is
    the same whatever the tag is. *)
Theorem UpdateRelease_body :
  forall (W : Type) (exec : Executor W) (w : W) (pid : GoValue) (project tag : string)
         (o : UpdateReleaseOptions.t),
    parseID pid = Ok project ->
    calls (run exec (UpdateRelease Releases pid tag (Some o) []) w)
    = [mkRequest "PUT" ("projects/" ++ url.QueryEscape project ++ "/releases/" ++ tag)
         None (Some (json.encode (UpdateReleaseOptions.Marshal o))) []] /\
    json.keys (UpdateReleaseOptions.Marshal o) = ["name"; "description"] /\
    json.field "name" (UpdateReleaseOptions.Marshal o)
    = Some (json.Str (UpdateReleaseOptions.Name o)) /\
    json.field "description" (UpdateReleaseOptions.Marshal o)
    = Some (json.Str (UpdateReleaseOptions.Description o)) /\
    json.field "tag_name" (UpdateReleaseOptions.Marshal o) = None /\
    json.parse (json.encode (UpdateReleaseOptions.Marshal o))
    = Some (UpdateReleaseOptions.Marshal o) /\
    json.encode (UpdateReleaseOptions.Marshal o)
    = "{" ++ member_text "name" (UpdateReleaseOptions.Name o)
      ++ "," ++ member_text "description" (UpdateReleaseOptions.Description o) ++ "}" /\
    (forall tag' : string,
        map Body (calls (run exec (UpdateRelease Releases pid tag' (Some o) []) w))
        = map Body (calls (run exec (UpdateRelease Releases pid tag (Some o) []) w))).
Proof.
  intros W exec w pid project tag o Hid.
  assert (Hcalls : forall t : string,
             calls (run exec (UpdateRelease Releases pid t (Some o) []) w)
             = [mkRequest "PUT"
                  ("projects/" ++ url.QueryEscape project ++ "/releases/" ++ t)
                  None (Some (json.encode (UpdateReleaseOptions.Marshal o))) []]).
  { intros t.
    pose proof (run_perform_built exec Releases pid (OpUpdateRelease t (Some o)) []
                  w project _ Hid eq_refl) as Hrun.
    cbn [perform decodes_into target nil] in Hrun. rewrite Hrun. reflexivity. }
  split; [apply Hcalls|].
  split; [reflexivity|]. split; [reflexivity|]. split; [reflexivity|].
  split; [reflexivity|]. split; [apply parse_two_members|]. split.
  - unfold UpdateReleaseOptions.Marshal, member_text. simpl.
    repeat (rewrite !append_assoc; simpl). reflexivity.
  - intros tag'. rewrite !Hcalls. reflexivity.
Qed.

(** C7 on [TestReleasesService_UpdateRelease]. *)
Lemma UpdateRelease_body_witness :
  calls (run (ClientDo (HandleFunc "projects/1/releases/v0.1" exampleReleaseRsp))
           (UpdateRelease Releases (GoInt 1) "v0.1" (Some testUpdateOptions) []) tt)
  = [mkRequest "PUT" "projects/1/releases/v0.1" None
       (Some ("{" ++ member_text "name" "name"
                ++ "," ++ member_text "description" "Description" ++ "}")) []].
Proof.
  destruct (UpdateRelease_body unit
              (ClientDo (HandleFunc "projects/1/releases/v0.1" exampleReleaseRsp)) tt
              (GoInt 1) "1" "v0.1" testUpdateOptions eq_refl)
    as [Hcalls _].
  rewrite Hcalls. reflexivity.
Defined.

(* ------------------------------------------------------------------ *)
(** ** Asset links *)

Section AssetLinks.

Lemma concat_contains (n sep x : string) (ls : list string) :
  In x ls -> contains n x = true -> contains n (String.concat sep ls) = true.
Proof.
  intros Hin Hx. induction ls as [|y ls IH]; [contradiction|].
  destruct Hin as [->|Hin].
  - destruct ls as [|z ls]; [exact Hx|].
    cbn [String.concat]. now apply contains_append_l.
  - destruct ls as [|z ls]; [contradiction|].
    cbn [String.concat]. do 2 apply contains_append_r. now apply IH.
Qed.

Lemma contains_refl (n : string) : contains n n = true.
Proof.
  apply contains_prefix. rewrite <- (append_nil_r n) at 2. apply prefix_append.
Qed.

(** Every link of the options is written in the body of [CreateRelease]. *)
Lemma link_in_create_body (o : CreateReleaseOptions.t) (a : ReleaseAssets.t)
  (ls : list ReleaseAssetLink.t) (l : ReleaseAssetLink.t) :
  CreateReleaseOptions.Assets o = Some a ->
  ReleaseAssets.Links a = Some ls ->
  In l ls ->
  contains (json.encode (ReleaseAssetLink.Marshal l))
    (json.encode (CreateReleaseOptions.Marshal o)) = true.
Proof.
  intros Ha Hls Hin. rewrite create_body_text, Ha.
  do 7 apply contains_append_r. apply contains_append_l.
  do 3 apply contains_append_r.
  unfold ReleaseAssets.Marshal. rewrite Hls.
  change (json.encode
            (json.Object [("links", json.Array (map ReleaseAssetLink.Marshal ls))]))
    with ("{" ++ (json.encode_string "links" ++ ":"
                  ++ "[" ++ String.concat ","
                              (map json.encode (map ReleaseAssetLink.Marshal ls))
                  ++ "]") ++ "}").
  apply contains_append_r, contains_append_l.
  do 3 apply contains_append_r. apply contains_append_l.
  apply (concat_contains _ "," (json.encode (ReleaseAssetLink.Marshal l))).
  - apply in_map, in_map, Hin.
  - apply contains_refl.
Qed.

End AssetLinks.

(** C8: a create-input asset link is written as a JSON object with the
    display name under [name] and the URL under [ref], in that order and
    nothing else: there is no member [url], and the text reads back as that
    object.  That is how each link of the
    options appears in the body of [CreateRelease].  The links of a decoded
    release read the URL from [url], and a member [ref] leaves them
    unchanged. *)
Theorem ReleaseAssetLink_wire_keys :
  forall l : ReleaseAssetLink.t,
    json.keys (ReleaseAssetLink.Marshal l) = ["name"; "ref"] /\
    json.field "name" (ReleaseAssetLink.Marshal l)
    = Some (json.Str (ReleaseAssetLink.Name l)) /\
    json.field "ref" (ReleaseAssetLink.Marshal l)
    = Some (json.Str (ReleaseAssetLink.URL l)) /\
    json.field "url" (ReleaseAssetLink.Marshal l) = None /\
    json.parse (json.encode (ReleaseAssetLink.Marshal l))
    = Some (ReleaseAssetLink.Marshal l) /\
    json.encode (ReleaseAssetLink.Marshal l)
    = "{" ++ member_text "name" (ReleaseAssetLink.Name l)
      ++ "," ++ member_text "ref" (ReleaseAssetLink.URL l) ++ "}" /\
    (forall (W : Type) (exec : Executor W) (w : W) (pid : GoValue) (project : string)
            (o : CreateReleaseOptions.t) (a : ReleaseAssets.t)
            (ls : list ReleaseAssetLink.t),
        parseID pid = Ok project ->
        CreateReleaseOptions.Assets o = Some a ->
        ReleaseAssets.Links a = Some ls ->
        In l ls ->
        exists body : string,
          map Body (calls (run exec (CreateRelease Releases pid (Some o) []) w))
          = [Some body] /\
          contains
            ("{" ++ member_text "name" (ReleaseAssetLink.Name l)
             ++ "," ++ member_text "ref" (ReleaseAssetLink.URL l) ++ "}")
            body = true) /\
    (forall (out : ReleaseLink.t) (u : string) (v : json.value),
        ReleaseLink.set "url" (json.Str u) out
        = Some (ReleaseLink.mk (ReleaseLink.ID out) (ReleaseLink.Name out) u
                  (ReleaseLink.External out)) /\
        ReleaseLink.set "ref" v out = Some out).
Proof.
  intros l.
  assert (Htext : json.encode (ReleaseAssetLink.Marshal l)
                  = "{" ++ member_text "name" (ReleaseAssetLink.Name l)
                    ++ "," ++ member_text "ref" (ReleaseAssetLink.URL l) ++ "}").
  { unfold ReleaseAssetLink.Marshal, member_text. simpl.
    repeat (rewrite !append_assoc; simpl). reflexivity. }
  split; [reflexivity|]. split; [reflexivity|]. split; [reflexivity|].
  split; [reflexivity|]. split; [apply parse_two_members|].
  split; [exact Htext|]. split.
  - intros W exec w pid project o a ls Hid Ha Hls Hin.
    exists (json.encode (CreateReleaseOptions.Marshal o)). split.
    + pose proof (run_perform_built exec Releases pid (OpCreateRelease (Some o)) []
                    w project _ Hid eq_refl) as Hrun.
      cbn [perform decodes_into target nil] in Hrun. rewrite Hrun. reflexivity.
    + rewrite <- Htext. exact (link_in_create_body o a ls l Ha Hls Hin).
  - intros out u v. split; reflexivity.
Qed.

(** C8 on [TestReleasesService_CreateReleaseWithAsset]: the link of the test
    is in the body under [name] and [ref]. *)
Lemma ReleaseAssetLink_witness :
  exists body : string,
    map Body
      (calls (run (ClientDo (HandleFunc "projects/1/releases" exampleReleaseRsp))
                (CreateRelease Releases (GoInt 1) (Some testCreateOptionsWithAsset) []) tt))
    = [Some body] /\
    contains
      ("{" ++ member_text "name" "sldkf" ++ "," ++ member_text "ref" "sldkfj" ++ "}")
      body = true.
Proof.
  destruct (ReleaseAssetLink_wire_keys (ReleaseAssetLink.mk "sldkf" "sldkfj"))
    as [_ [_ [_ [_ [_ [_ [Hbody _]]]]]]].
  exact (Hbody unit (ClientDo (HandleFunc "projects/1/releases" exampleReleaseRsp)) tt
           (GoInt 1) "1" testCreateOptionsWithAsset
           (ReleaseAssets.mk (Some [ReleaseAssetLink.mk "sldkf" "sldkfj"]))
           [ReleaseAssetLink.mk "sldkf" "sldkfj"]
           eq_refl eq_refl eq_refl (or_introl eq_refl)).
Defined.

(* ------------------------------------------------------------------ *)
(** ** Round trip *)

(** The create-relevant fields of a release are the members of the options
    made from it. *)
Lemma createRelevant_members (r : Release.t) :
  create_relevant_members (CreateReleaseOptions.Marshal (createRelevant r))
  = [Some (json.Str (Release.TagName r)); Some (json.Str (Release.Name r));
     Some (json.Str (Release.Description r))].
Proof.
  reflexivity.
Qed.

(** C9: each release payload of the fixtures (the release of
    [exampleReleaseRsp] and the two of [exampleReleaseListRsp]) decodes into a
    release whose create-relevant fields, encoded again as options of
    [CreateRelease] and read back, give the [tag_name], [name] and
    [description] of the payload.  Whatever the payload, the new text reads
    back as the tag name, name and description of the decoded release.  For
    [exampleReleaseRsp] they are [v0.1],
    [Awesome app v0.1 alpha] and the description of the decoded release, and
    the three members are written in the new text exactly as the fixture has
    them. *)
Theorem fixture_round_trip :
  List.length fixture_payloads = 3 /\
  Forall preserved fixture_payloads /\
  (forall (j : json.value) (r : Release.t),
      Release.Unmarshal j Release.zero = Some r ->
      round_trip j = Some (CreateReleaseOptions.Marshal (createRelevant r)) /\
      create_relevant_members (CreateReleaseOptions.Marshal (createRelevant r))
      = [Some (json.Str (Release.TagName r)); Some (json.Str (Release.Name r));
         Some (json.Str (Release.Description r))]) /\
  option_map create_relevant_members (json.parse exampleReleaseRsp)
  = Some [Some (json.Str "v0.1"); Some (json.Str "Awesome app v0.1 alpha");
          Some (json.Str (Release.Description exampleRelease))] /\
  (forall member : string,
      In member
        [member_text "tag_name" (Release.TagName exampleRelease);
         member_text "name" (Release.Name exampleRelease);
         member_text "description" (Release.Description exampleRelease)] ->
      contains member exampleReleaseRsp = true /\
      contains member
        (json.encode (CreateReleaseOptions.Marshal (createRelevant exampleRelease)))
      = true).
Proof.
  split; [vm_compute; reflexivity|]. split.
  - let ps := eval vm_compute in fixture_payloads in
    assert (E : fixture_payloads = ps) by (vm_compute; reflexivity).
    rewrite E. clear E.
    repeat constructor;
      match goal with
      | |- exists j', round_trip ?j = Some j' /\ _ =>
          let r := eval vm_compute in (round_trip j) in
          match r with
          | Some ?j' => exists j'; split; vm_compute; reflexivity
          end
      | |- _ => vm_compute; reflexivity
      end.
  - split.
    { intros j r Hr. unfold round_trip. rewrite Hr.
      split; [apply parse_create_body; reflexivity | apply createRelevant_members]. }
    split; [vm_compute; reflexivity|].
    intros member Hin. simpl in Hin.
    repeat (destruct Hin as [<-|Hin]; [split; vm_compute; reflexivity|]).
    contradiction.
Qed.

(** C9 on the payload of [exampleReleaseRsp]: what comes back from the round
    trip has the three members of the payload. *)
Lemma fixture_round_trip_witness :
  option_map create_relevant_members
    (match json.parse exampleReleaseRsp with
     | Some j => round_trip j
     | None => None
     end)
  = option_map create_relevant_members (json.parse exampleReleaseRsp).
Proof.
  destruct fixture_round_trip as [_ [_ [Hany _]]].
  let p := eval vm_compute in (json.parse exampleReleaseRsp) in
  match p with
  | Some ?j =>
      assert (E : json.parse exampleReleaseRsp = Some j) by (vm_compute; reflexivity);
      rewrite E;
      destruct (Hany j exampleRelease) as [Hrt _];
      [ vm_compute; reflexivity | rewrite Hrt; vm_compute; reflexivity ]
  end.
Defined.


(* ------------------------------------------------------------------ *)
(** * Further properties of the operations *)

(** ** The three ways out of an operation *)

(** X1: when [NewRequest] fails, the operation returns its error with a [nil]
    result and [nil] response metadata, [Do] is not called and the world is
    as before; this is the second [return nil, nil, err] of each of the five
    operations, for every client and every executor. *)
Theorem request_construction_failure_is_local :
  forall (W : Type) (exec : Executor W) (s : ReleasesService) (pid : GoValue)
         (o : Operation) (options : list OptionFunc) (w : W)
         (project : string) (e : error),
    parseID pid = Ok project ->
    NewRequest (client s) (table_method o) (table_path (url.QueryEscape project) o)
      (table_payload o) options = Err e ->
    returned (run exec (perform s pid o options) w)
    = (nil (decodes_into o), None, Some e) /\
    calls (run exec (perform s pid o options) w) = [] /\
    world (run exec (perform s pid o options) w) = w.
Proof.
  intros W exec s pid o options w project e Hid Hreq.
  rewrite (run_perform_bad_request exec s pid o options w project e Hid Hreq).
  repeat split.
Qed.

(** X1 on [CreateRelease] with a per-call option that fails. *)
Lemma request_construction_failure_witness :
  returned
    (run (ClientDo (HandleFunc "projects/1/releases" exampleReleaseRsp))
       (CreateRelease Releases (GoInt 1) (Some testCreateOptions)
          [failingOption (mkError RequestConstructionError "bad option")]) tt)
  = (None, None, Some (mkError RequestConstructionError "bad option")) /\
  calls
    (run (ClientDo (HandleFunc "projects/1/releases" exampleReleaseRsp))
       (CreateRelease Releases (GoInt 1) (Some testCreateOptions)
          [failingOption (mkError RequestConstructionError "bad option")]) tt)
  = [].
Proof.
  destruct (request_construction_failure_is_local unit
              (ClientDo (HandleFunc "projects/1/releases" exampleReleaseRsp))
              Releases (GoInt 1) (OpCreateRelease (Some testCreateOptions))
              [failingOption (mkError RequestConstructionError "bad option")] tt "1"
              (mkError RequestConstructionError "bad option") eq_refl eq_refl)
    as [Hr [Hc _]].
  split; [exact Hr | exact Hc].
Defined.

(** X2: when [Do] comes back without an error, the operation returns the
    content of the variable and the response exactly as [Do] left them, with
    a [nil] error, after that one call; this holds for every client and every
    executor, so a [nil] error does not promise a result that is not [nil]. *)
Theorem success_returns_what_Do_left :
  forall (W : Type) (exec : Executor W) (s : ReleasesService) (pid : GoValue)
         (o : Operation) (options : list OptionFunc) (w : W)
         (project : string) (req : Request),
    parseID pid = Ok project ->
    NewRequest (client s) (table_method o) (table_path (url.QueryEscape project) o)
      (table_payload o) options = Ok req ->
    err (fst (exec (decodes_into o) req (nil (decodes_into o)) w)) = None ->
    returned (run exec (perform s pid o options) w)
    = (value (fst (exec (decodes_into o) req (nil (decodes_into o)) w)),
       resp (fst (exec (decodes_into o) req (nil (decodes_into o)) w)),
       None) /\
    calls (run exec (perform s pid o options) w) = [req] /\
    world (run exec (perform s pid o options) w)
    = snd (exec (decodes_into o) req (nil (decodes_into o)) w).
Proof.
  intros W exec s pid o options w project req Hid Hreq Herr.
  rewrite (run_perform_built exec s pid o options w project req Hid Hreq).
  simpl. rewrite Herr. repeat split.
Qed.

(** X2 on a server that answers [null]: [GetRelease] returns a [nil] release
    and a [nil] error. *)
Lemma success_witness :
  returned (run (ClientDo (HandleFunc "projects/1/releases/v0.1" "null"))
              (GetRelease Releases (GoInt 1) "v0.1" []) tt)
  = (None, Some (mkResponse 200 "null"), None).
Proof.
  destruct (success_returns_what_Do_left unit
              (ClientDo (HandleFunc "projects/1/releases/v0.1" "null"))
              Releases (GoInt 1) (OpGetRelease "v0.1") [] tt "1"
              (mkRequest "GET" "projects/1/releases/v0.1" None None [])
              eq_refl eq_refl eq_refl) as [Hr _].
  exact Hr.
Defined.

(** X3: no operation calls [Do] more than once, whatever the input, the
    client and the executor; an operation that returns a [nil] error has
    called it exactly once; and an operation that has not called it leaves
    the world as it was and returns [nil] response metadata and an error. *)
Theorem at_most_one_round_trip :
  forall (W : Type) (exec : Executor W) (s : ReleasesService) (pid : GoValue)
         (o : Operation) (options : list OptionFunc) (w : W),
    List.length (calls (run exec (perform s pid o options) w)) <= 1 /\
    (error_of (returned (run exec (perform s pid o options) w)) = None ->
     List.length (calls (run exec (perform s pid o options) w)) = 1) /\
    (calls (run exec (perform s pid o options) w) = [] ->
     world (run exec (perform s pid o options) w) = w /\
     response_of (returned (run exec (perform s pid o options) w)) = None /\
     error_of (returned (run exec (perform s pid o options) w)) <> None).
Proof.
  intros W exec s pid o options w. rewrite perform_unfold.
  destruct (parseID pid) as [project|e].
  - destruct (NewRequest _ _ _ _ _) as [req|e].
    + rewrite run_Do, run_finish. cbn. repeat split; try lia; discriminate.
    + cbn. repeat split; try lia; discriminate.
  - cbn. repeat split; try lia; discriminate.
Qed.

(** X3 on [TestReleasesService_DeleteRelease]: no error, one call. *)
Lemma at_most_one_round_trip_witness :
  error_of
    (returned (run (ClientDo (HandleFunc "projects/1/releases/v0.1" exampleReleaseRsp))
                 (perform Releases (GoInt 1) (OpDeleteRelease "v0.1") []) tt))
  = None /\
  List.length
    (calls (run (ClientDo (HandleFunc "projects/1/releases/v0.1" exampleReleaseRsp))
              (perform Releases (GoInt 1) (OpDeleteRelease "v0.1") []) tt))
  = 1.
Proof.
  assert (E : error_of
                (returned
                   (run (ClientDo (HandleFunc "projects/1/releases/v0.1" exampleReleaseRsp))
                      (perform Releases (GoInt 1) (OpDeleteRelease "v0.1") []) tt))
              = None) by (vm_compute; reflexivity).
  split; [exact E|].
  exact (proj1 (proj2 (at_most_one_round_trip unit
                         (ClientDo (HandleFunc "projects/1/releases/v0.1" exampleReleaseRsp))
                         Releases (GoInt 1) (OpDeleteRelease "v0.1") [] tt)) E).
Defined.

(* ------------------------------------------------------------------ *)
(** ** The path of a request *)

Section EscapedProject.

Ltac each_byte c := destruct c as [[] [] [] [] [] [] [] []].

Lemma QueryUnescape_QueryEscape_cons (c : ascii) (r : string) :
  url.QueryUnescape (url.QueryEscape (String c r)) =
  option_map (String c) (url.QueryUnescape (url.QueryEscape r)).
Proof.
  each_byte c; reflexivity.
Qed.

Lemma QueryUnescape_QueryEscape (s : string) :
  url.QueryUnescape (url.QueryEscape s) = Some s.
Proof.
  induction s as [|c r IH]; [reflexivity|].
  rewrite QueryUnescape_QueryEscape_cons, IH. reflexivity.
Qed.

Lemma QueryEscape_injective (a b : string) :
  url.QueryEscape a = url.QueryEscape b -> a = b.
Proof.
  intros H. apply (f_equal url.QueryUnescape) in H.
  rewrite !QueryUnescape_QueryEscape in H. now injection H.
Qed.

Lemma QueryEscape_cons_bytes (c : ascii) (r : string) :
  url.all_bytes url.escaped_byte (url.QueryEscape (String c r)) =
  url.all_bytes url.escaped_byte (url.QueryEscape r).
Proof.
  each_byte c; reflexivity.
Qed.

Lemma QueryEscape_bytes (s : string) :
  url.all_bytes url.escaped_byte (url.QueryEscape s) = true.
Proof.
  induction s as [|c r IH]; [reflexivity|].
  now rewrite QueryEscape_cons_bytes.
Qed.

(** Two texts cut at the first occurrence of a byte are cut at the same
    place. *)
Lemma first_cut_unique (c : ascii) (a b x y : string) :
  mem c a = false -> mem c b = false ->
  a ++ String c x = b ++ String c y -> a = b /\ x = y.
Proof.
  revert b. induction a as [|p a IH]; intros [|q b] Ha Hb H; simpl in *.
  - injection H as ->. split; reflexivity.
  - injection H as <- _. rewrite Ascii.eqb_refl in Hb. discriminate.
  - injection H as -> _. rewrite Ascii.eqb_refl in Ha. discriminate.
  - injection H as -> H. apply orb_false_iff in Ha, Hb.
    destruct (IH b (proj2 Ha) (proj2 Hb) H) as [-> ->]. split; reflexivity.
Qed.

Lemma append_inv_head (a x y : string) : a ++ x = a ++ y -> x = y.
Proof.
  induction a as [|c a IH]; simpl; intros H; [exact H|].
  injection H as H. now apply IH.
Qed.

Lemma table_path_injective (p1 p2 : string) (o1 o2 : Operation) :
  table_path (url.QueryEscape p1) o1 = table_path (url.QueryEscape p2) o2 ->
  p1 = p2 /\ tag_of o1 = tag_of o2.
Proof.
  intros H.
  assert (Hcut : forall x y : string,
             url.QueryEscape p1 ++ String "/" x = url.QueryEscape p2 ++ String "/" y ->
             p1 = p2 /\ x = y).
  { intros x y Hxy.
    destruct (first_cut_unique "/" _ _ x y (QueryEscape_no_slash p1)
                (QueryEscape_no_slash p2) Hxy) as [He Hx].
    split; [now apply QueryEscape_injective | exact Hx]. }
  destruct o1, o2; cbn [table_path tag_of] in *;
    apply append_inv_head in H; cbn [append] in H;
    destruct (Hcut _ _ H) as [Hp Ht]; (split; [exact Hp|]);
    try reflexivity; try discriminate Ht;
    apply (append_inv_head "releases/") in Ht; now rewrite Ht.
Qed.

End EscapedProject.

(** X4: the path of a request determines the project and the tag: two calls
    without per-call options whose requests have the same path are for the
    same project and, when the operations take a tag, for the same tag; the
    path of [ListReleases] or [CreateRelease] is never the path of
    [GetRelease], [UpdateRelease] or [DeleteRelease]. *)
Theorem path_determines_project_and_tag :
  forall (W : Type) (exec : Executor W) (w : W) (pid1 pid2 : GoValue)
         (project1 project2 : string) (o1 o2 : Operation),
    parseID pid1 = Ok project1 ->
    parseID pid2 = Ok project2 ->
    map Path (calls (run exec (perform Releases pid1 o1 []) w))
    = map Path (calls (run exec (perform Releases pid2 o2 []) w)) ->
    project1 = project2 /\ tag_of o1 = tag_of o2.
Proof.
  intros W exec w pid1 pid2 p1 p2 o1 o2 H1 H2 H.
  rewrite (run_perform_built exec Releases pid1 o1 [] w p1 _ H1 eq_refl) in H.
  rewrite (run_perform_built exec Releases pid2 o2 [] w p2 _ H2 eq_refl) in H.
  cbn [calls map] in H. injection H as H.
  exact (table_path_injective p1 p2 o1 o2 H).
Qed.

(** X4 on a project given by its number and by the text of its number: the
    paths of [GetRelease] and [DeleteRelease] agree, and so do project and
    tag. *)
Lemma path_determines_witness :
  "1" = "1" /\ tag_of (OpGetRelease "v0.1") = tag_of (OpDeleteRelease "v0.1").
Proof.
  exact (path_determines_project_and_tag unit partialDecode tt
           (GoInt 1) (GoString "1") "1" "1"
           (OpGetRelease "v0.1") (OpDeleteRelease "v0.1")
           eq_refl eq_refl eq_refl).
Defined.

(** X5: whatever bytes the project reference holds, it reaches the path as
    letters, digits, [-], [_], [.], [~], [%] and [+] only, between
    [projects/] and [/releases]; the tag follows as it is. *)
Theorem project_segment_bytes :
  forall (W : Type) (exec : Executor W) (w : W) (pid : GoValue) (project : string)
         (o : Operation),
    parseID pid = Ok project ->
    map Path (calls (run exec (perform Releases pid o []) w))
    = ["projects/" ++ url.QueryEscape project ++ "/releases"
       ++ match tag_of o with
          | None => EmptyString
          | Some tag => "/" ++ tag
          end] /\
    url.all_bytes url.escaped_byte (url.QueryEscape project) = true.
Proof.
  intros W exec w pid project o Hid. split; [|apply QueryEscape_bytes].
  rewrite (run_perform_built exec Releases pid o [] w project _ Hid eq_refl).
  cbn [calls map]. f_equal.
  destruct o; cbn [table_path tag_of baseRequest Path]; reflexivity.
Qed.

(** X5 on a project reference with a slash, a question mark, a number sign
    and a space. *)
Lemma project_segment_witness :
  map Path
    (calls (run partialDecode
              (perform Releases (GoString "a/b?c#d e") (OpGetRelease "v0.1") []) tt))
  = ["projects/a%2Fb%3Fc%23d+e/releases/v0.1"].
Proof.
  destruct (project_segment_bytes unit partialDecode tt (GoString "a/b?c#d e")
              "a/b?c#d e" (OpGetRelease "v0.1") eq_refl) as [Hp _].
  rewrite Hp. reflexivity.
Defined.

(* ------------------------------------------------------------------ *)
(** ** The body of CreateRelease, with assets *)

Section CreateBodyRoundTrip.

Ltac step := cbv iota; simpl (Ascii.eqb _ _); cbv iota.













End CreateBodyRoundTrip.

Section CreateBodyInjective.







End CreateBodyInjective.



(* ------------------------------------------------------------------ *)
(** ** Decoding a release *)

Section DecodingReleases.

Lemma Unmarshal_cons (k : string) (v : json.value) (ms : list (string * json.value))
  (cur : Release.t) :
  Release.Unmarshal (json.Object ((k, v) :: ms)) cur =
  match Release.set k v cur with
  | Some x => Release.Unmarshal (json.Object ms) x
  | None => None
  end.
Proof.
  unfold Release.Unmarshal, json.into_struct. cbn [fold_left fst snd].
  destruct (Release.set k v cur); [reflexivity | apply fold_set_None].
Qed.

Lemma Unmarshal_app (ms1 ms2 : list (string * json.value)) (cur : Release.t) :
  Release.Unmarshal (json.Object (ms1 ++ ms2)) cur =
  match Release.Unmarshal (json.Object ms1) cur with
  | Some x => Release.Unmarshal (json.Object ms2) x
  | None => None
  end.
Proof.
  revert cur. induction ms1 as [|[k v] ms1 IH]; intros cur; [reflexivity|].
  cbn [app]. rewrite !Unmarshal_cons.
  destruct (Release.set k v cur); [apply IH | reflexivity].
Qed.


Lemma equal_fold_length (a b : string) :
  equal_fold a b = true -> String.length a = String.length b.
Proof.
  revert b. induction a as [|x a IH]; intros [|y b] H; simpl in H;
    try discriminate; [reflexivity|].
  apply andb_true_iff in H. simpl. f_equal. now apply IH.
Qed.

(** Two keys of different lengths are not both the key of a member. *)
Lemma equal_fold_other (k a b : string) :
  String.length a <> String.length b ->
  equal_fold k a = true -> equal_fold k b = false.
Proof.
  intros Hab Ha. destruct (equal_fold k b) eqn:Hb; [|reflexivity].
  apply equal_fold_length in Ha, Hb. congruence.
Qed.


(** The branch of [Release.set] that the key [K] takes. *)
Ltac this_member K Hk H :=
  unfold Release.set in H;
  repeat match type of H with
         | (if equal_fold ?k K then _ else _) = _ => rewrite Hk in H
         | (if equal_fold ?k ?K' then _ else _) = _ =>
             rewrite (equal_fold_other k K K' ltac:(simpl; lia) Hk) in H
         end.

Section Field.

Variable X : Type.
Variable proj : Release.t -> X.
Variable K : string.
Hypothesis Hkeep :
  forall k v r r', equal_fold k K = false -> Release.set k v r = Some r' -> proj r' = proj r.


End Field.

Section StringField.

Variable proj : Release.t -> string.
Variable K : string.
Hypothesis Hkeep :
  forall k v r r', equal_fold k K = false -> Release.set k v r = Some r' -> proj r' = proj r.
Hypothesis Hhit :
  forall k v r r', equal_fold k K = true -> Release.set k v r = Some r' ->
                   proj r' = match v with json.Str s => s | _ => proj r end.

End StringField.














(** A string field does not take a number, a boolean, an array or an
    object. *)
Lemma bad_string (K k : string) (v : json.value) (r : Release.t) :
  In K ["tag_name"; "name"; "description"; "description_html"] ->
  equal_fold k K = true -> string_or_null v = false ->
  Release.set k v r = None.
Proof.
  intros HK Hk Hv.
  destruct (Release.set k v r) as [r'|] eqn:H; [|reflexivity]. exfalso.
  simpl in HK.
  destruct HK as [<-|[<-|[<-|[<-|[]]]]].
  - this_member "tag_name" Hk H. cbv iota in H.
    destruct v; simpl in H; discriminate.
  - this_member "name" Hk H. cbv iota in H.
    destruct v; simpl in H; discriminate.
  - this_member "description" Hk H. cbv iota in H.
    destruct v; simpl in H; discriminate.
  - this_member "description_html" Hk H. cbv iota in H.
    destruct v; simpl in H; discriminate.
Qed.

End DecodingReleases.







(** X10: a payload in which [tag_name], [name], [description] or
    [description_html] is a number, a boolean, an array or an object does
    not decode, whatever its other members are. *)
Theorem string_field_rejects_other_types :
  forall (ms1 ms2 : list (string * json.value)) (key k : string) (v : json.value)
         (cur : Release.t),
    In key ["tag_name"; "name"; "description"; "description_html"] ->
    equal_fold k key = true ->
    string_or_null v = false ->
    Release.Unmarshal (json.Object (ms1 ++ (k, v) :: ms2)) cur = None.
Proof.
  intros ms1 ms2 key k v cur Hkey Hk Hv. rewrite Unmarshal_app.
  destruct (Release.Unmarshal (json.Object ms1) cur) as [x|]; [|reflexivity].
  now rewrite Unmarshal_cons, (bad_string key k v x Hkey Hk Hv).
Qed.

(** X10 on a payload whose tag name is a number. *)
Lemma string_field_rejects_witness :
  Release.Unmarshal
    (json.Object [("name", json.Str "n"); ("Tag_Name", json.Number "1")]) Release.zero
  = None.
Proof.
  exact (string_field_rejects_other_types [("name", json.Str "n")] [] "tag_name"
           "Tag_Name" (json.Number "1") Release.zero (or_introl eq_refl)
           eq_refl eq_refl).
Defined.

(* ------------------------------------------------------------------ *)
(** ** ListReleases, for an array of any length *)

Lemma UnmarshalSlice_any (js : list json.value) (rs : list (option Release.t)) :
  Forall2 decodes_to js rs ->
  Release.UnmarshalSlice (json.Array js) None = Some (Some rs).
Proof.
  intros H. unfold Release.UnmarshalSlice, json.into_slice.
  assert (E : json.into_elems None Release.UnmarshalPtr js [] = Some rs).
  { induction H as [|j r js rs Hj _ IH]; [reflexivity|].
    cbn [json.into_elems hd tl].
    destruct Hj as [|ms x Hx].
    - cbn [Release.UnmarshalPtr json.into_ptr]. rewrite IH. reflexivity.
    - rewrite (UnmarshalPtr_Object ms x Hx), IH. reflexivity. }
  now rewrite E.
Qed.

(** X11: when the server answers [ListReleases] with a success status and a
    JSON array of any length, the operation returns a slice of that length
    that is not [nil], also for the empty array, with the release of each
    object and a [nil] pointer for each [null], in the order of the array;
    the response comes with it and the error is [nil]. *)
Theorem ListReleases_decodes_every_element :
  forall (W : Type) (server : Server W) (w w' : W) (pid : GoValue) (project : string)
         (opt : option ListReleasesOptions) (status : Z) (body : string)
         (js : list json.value) (rs : list (option Release.t)),
    parseID pid = Ok project ->
    server
      (mkRequest "GET" ("projects/" ++ url.QueryEscape project ++ "/releases") opt None [])
      w = (Replied status body, w') ->
    success status = true ->
    json.parse body = Some (json.Array js) ->
    Forall2 decodes_to js rs ->
    returned (run (ClientDo server) (ListReleases Releases pid opt []) w)
    = (Some rs, Some (mkResponse status body), None) /\
    List.length rs = List.length js.
Proof.
  intros W server w w' pid project opt status body js rs Hid Hsrv Hok Hparse Hdec.
  split; [|symmetry; exact (Forall2_length Hdec)].
  pose proof (run_perform_success server Releases pid (OpListReleases opt) []
                w w' project _ status body (Some rs) Hid eq_refl Hsrv Hok) as Hret.
  cbn [perform decodes_into target nil] in Hret. rewrite Hret; [reflexivity|].
  unfold Unmarshal. rewrite Hparse. now apply UnmarshalSlice_any.
Qed.

(** X11 on a server that answers with an array of one [null]: a slice of
    one [nil] pointer, and no error. *)
Lemma ListReleases_every_element_witness :
  returned (run (ClientDo (HandleFunc "projects/1/releases" "[null]"))
              (ListReleases Releases (GoInt 1) None []) tt)
  = (Some [None], Some (mkResponse 200 "[null]"), None).
Proof.
  exact (proj1 (ListReleases_decodes_every_element unit
                  (HandleFunc "projects/1/releases" "[null]") tt tt (GoInt 1) "1"
                  None 200%Z "[null]" [json.Null] [None]
                  eq_refl eq_refl eq_refl eq_refl
                  (Forall2_cons _ _ decodes_null (Forall2_nil _)))).
Defined.
